(** * Resource lifecycle adapters of the azurerm provider

    A shallow embedding of

    - [azurerm/resource_arm_recovery_services_replication_fabric.go]
    - [azurerm/internal/services/loganalytics/resource_arm_log_analytics_datasource_windows_performance_counter.go]

    Go functions that return [error] become computations in a small
    state-and-error monad.  The state carries the remote side (a world the
    SDK clients act on), the log of SDK calls issued so far together with
    what each call returned, and the [*schema.ResourceData] the function
    was handed.  A nil-pointer dereference or a failed type assertion is
    the outcome [Panic]. *)

From Stdlib Require Import ZArith Lia Ascii String.
From stdpp Require Import base option list gmap strings sorting.

Set Warnings "-register-all".

(** ** Values held by a [schema.ResourceData] *)

Inductive Value :=
  | VNil
  | VString (s : string)
  | VInt (n : Z).

Inductive ValueType := TypeString | TypeInt.

Definition zeroValue (t : ValueType) : Value :=
  match t with
  | TypeString => VString ""
  | TypeInt => VInt 0
  end.

(** ** [helper/validation] *)

Inductive ValidationError :=
  | ExpectedType (k : string) (ty : ValueType)
  | NotInRange (k : string) (min max v : Z)
  | IsEmptyString (k : string)
  | InvalidValue (k message : string).

(** [schema.SchemaValidateFunc]: warnings and errors for a value under a key. *)
Definition SchemaValidateFunc : Type :=
  Value -> string -> list string * list ValidationError.

Definition MaxInt32 : Z := 2147483647.

(** [validation.IntBetween(min, max)] *)
Definition IntBetween (min max : Z) : SchemaValidateFunc :=
  fun i k =>
    match i with
    | VInt v =>
        if ((v <? min) || (v >? max))%Z
        then ([], [NotInRange k min max v])
        else ([], [])
    | _ => ([], [ExpectedType k TypeInt])
    end.

(** [validation.StringIsNotEmpty] *)
Definition StringIsNotEmpty : SchemaValidateFunc :=
  fun i k =>
    match i with
    | VString v =>
        if String.eqb v "" then ([], [IsEmptyString k]) else ([], [])
    | _ => ([], [ExpectedType k TypeString])
    end.

(** [validation.StringMatch(r, message)]; the compiled expression is its
    matching predicate. *)
Definition StringMatch (r : string -> bool) (message : string)
  : SchemaValidateFunc :=
  fun i k =>
    match i with
    | VString v =>
        if r v then ([], []) else ([], [InvalidValue k message])
    | _ => ([], [ExpectedType k TypeString])
    end.

(** A validator accepts a value when it reports no error. *)
Definition accepts (f : SchemaValidateFunc) (v : Value) (k : string) : Prop :=
  snd (f v k) = [].

(** ** [schema.Schema] and [schema.Resource] *)

Record Schema := mkSchema {
  Type_ : ValueType;
  Required : bool;
  ForceNew : bool;
  ValidateFunc : option SchemaValidateFunc;
  DiffSuppressFunc : option (string -> string -> string -> bool)
}.

(** ** [schema.ResourceData] *)

Record ResourceData := mkResourceData {
  rd_id : string;
  rd_isNew : bool;
  rd_attrs : gmap string Value
}.

(** What a read through the schema yields for a key of type [t]: the stored
    value when it has that type, the zero value of the type otherwise. *)
Definition readField (t : ValueType) (v : option Value) : Value :=
  match t, v with
  | TypeString, Some (VString s) => VString s
  | TypeInt, Some (VInt n) => VInt n
  | _, _ => zeroValue t
  end.

(** [d.Get(key)]: nil for a key outside the schema. *)
Definition ResourceData_Get (sch : gmap string Schema) (d : ResourceData)
    (key : string) : option Value :=
  match sch !! key with
  | Some s => Some (readField (Type_ s) (rd_attrs d !! key))
  | None => None
  end.

(** [d.Set(key, value)]; its error result is dropped at every call site. *)
Definition ResourceData_Set (d : ResourceData) (key : string) (v : Value)
  : ResourceData :=
  {| rd_id := rd_id d; rd_isNew := rd_isNew d;
     rd_attrs := <[key := v]> (rd_attrs d) |}.

(** [d.SetId(id)] *)
Definition ResourceData_SetId (d : ResourceData) (id : string) : ResourceData :=
  {| rd_id := id; rd_isNew := rd_isNew d; rd_attrs := rd_attrs d |}.

(** A [*string] handed to [d.Set]: a nil pointer stores nil. *)
Definition ofStringPtr (p : option string) : Value :=
  match p with
  | Some s => VString s
  | None => VNil
  end.

(** ** Errors *)

Inductive error :=
  | SdkError (msg : string)
  | ParseError (msg : string)
  | ImportAsExistsError (resourceName id : string)
  | Errorf (format : string) (args : list string) (cause : option error).

Inductive result (A : Type) :=
  | Success (a : A)
  | Failure (e : error).
Arguments Success {A} a.
Arguments Failure {A} e.

(** ** SDK types *)

(** [autorest.Response]: the embedded [*http.Response] may be nil. *)
Record Response := mkResponse { StatusCode : option Z }.

Module siterecovery.

Inductive InstanceType :=
  | InstanceTypeAzure
  | InstanceTypeFabricSpecificCreationInput
  | InstanceTypeVMwareV2.

Record AzureFabricCreationInput := mkAzureFabricCreationInput {
  Location : option string;
  InstanceType_ : InstanceType
}.

(** [BasicFabricSpecificCreationInput] *)
Inductive BasicFabricSpecificCreationInput :=
  | AzureInput (a : AzureFabricCreationInput)
  | OtherInput (t : InstanceType).

Record FabricCreationInputProperties := mkFabricCreationInputProperties {
  CustomDetails : BasicFabricSpecificCreationInput
}.

Record FabricCreationInput := mkFabricCreationInput {
  Properties : option FabricCreationInputProperties
}.

Record AzureFabricSpecificDetails := mkAzureFabricSpecificDetails {
  DetailsLocation : option string
}.

(** [BasicFabricSpecificDetails], with its [AsAzureFabricSpecificDetails]. *)
Inductive BasicFabricSpecificDetails :=
  | AzureDetails (a : AzureFabricSpecificDetails)
  | OtherDetails (instanceType : string).

Definition AsAzureFabricSpecificDetails (b : BasicFabricSpecificDetails)
  : option AzureFabricSpecificDetails * bool :=
  match b with
  | AzureDetails a => (Some a, true)
  | OtherDetails _ => (None, false)
  end.

Record FabricProperties := mkFabricProperties {
  FabricCustomDetails : option BasicFabricSpecificDetails
}.

Record Fabric := mkFabric {
  FabricResponse : Response;
  ID : option string;
  Name : option string;
  FabricProps : option FabricProperties
}.

End siterecovery.

(** The property document of a Windows performance counter data source. *)
Record dataSourceWindowsPerformanceCounterProperty := mkProperty {
  CounterName : string;
  InstanceName : string;
  IntervalSeconds : Z;
  ObjectName : string
}.

(** A [float64] as [encoding/json] produces it from a number: either it has
    an integral value, or it does not. *)
Inductive float64 :=
  | FIntegral (z : Z)
  | FFractional.

(** A Go [interface{}]: what [encoding/json] decodes a document into, or the
    pointer to the property struct that Create puts there. *)
Inductive GoValue :=
  | GNil
  | GBool (b : bool)
  | GFloat (f : float64)
  | GString (s : string)
  | GSlice (l : list GoValue)
  | GMap (m : gmap string GoValue)
  | GProperty (p : dataSourceWindowsPerformanceCounterProperty).

Module operationalinsights.

Definition WindowsPerformanceCounter : string := "WindowsPerformanceCounter".

Record DataSource := mkDataSource {
  DataSourceResponse : Response;
  Properties : GoValue;
  Kind : string;
  ID : option string;
  Name : option string
}.

End operationalinsights.

(** [ResourceID] as the fabric code reads it. *)
Record ResourceID := mkResourceID {
  SubscriptionID : string;
  ResourceGroup : string;
  Provider : string;
  Path : gmap string string
}.

(** [parse.LogAnalyticsDataSourceId] *)
Record LogAnalyticsDataSourceId := mkLogAnalyticsDataSourceId {
  ds_ResourceGroup : string;
  ds_Workspace : string;
  ds_Name : string
}.

(** Indexing a Go [map[string]string]: the empty string for a missing key. *)
Definition index (m : gmap string string) (k : string) : string :=
  default "" (m !! k).

(** ** Functions that the two files call but do not define *)

Class Helpers := {
  (** the package-level switch of the import-safety guard *)
  requireResourcesToBeImported : bool;
  (** [utils.ResponseWasNotFound] *)
  ResponseWasNotFound : Response -> bool;
  parseAzureResourceID : string -> result ResourceID;
  (** [parse.LogAnalyticsDataSourceID] *)
  LogAnalyticsDataSourceID : string -> result LogAnalyticsDataSourceId;
  azureRMNormalizeLocation : string -> string;
  locationSchema : Schema;
  resourceGroupNameSchema : Schema;
  (** [azure.SchemaResourceGroupName] *)
  SchemaResourceGroupName : Schema;
  (** [suppress.CaseDifference] *)
  CaseDifference : string -> string -> string -> bool;
  ValidateAzureRmLogAnalyticsWorkspaceName : SchemaValidateFunc;
  (** the case folding under which [encoding/json] matches a member name
      that equals no struct tag exactly; it varies with the Go release *)
  equalFold : string -> string -> bool;
  (** the callers assert [d.Get(key).(string)] on the keys of the shared
      schemas, which are therefore of type string *)
  locationSchema_Type : Type_ locationSchema = TypeString;
  resourceGroupNameSchema_Type : Type_ resourceGroupNameSchema = TypeString;
  SchemaResourceGroupName_Type : Type_ SchemaResourceGroupName = TypeString
}.

(** ** The remote side, seen through the SDK clients *)

Class Remote := {
  World : Type;
  CreateFuture : Type;
  DeleteFuture : Type;
  fabrics_Get :
    string -> string -> string -> World ->
    (siterecovery.Fabric * option error) * World;
  fabrics_Create :
    string -> string -> string -> siterecovery.FabricCreationInput -> World ->
    (CreateFuture * option error) * World;
  createFuture_WaitForCompletionRef :
    CreateFuture -> World -> option error * World;
  createFuture_Result :
    CreateFuture -> World -> (siterecovery.Fabric * option error) * World;
  fabrics_Delete :
    string -> string -> string -> World ->
    (DeleteFuture * option error) * World;
  deleteFuture_WaitForCompletionRef :
    DeleteFuture -> World -> option error * World;
  deleteFuture_Result :
    DeleteFuture -> World -> (Response * option error) * World;
  dataSources_Get :
    string -> string -> string -> World ->
    (operationalinsights.DataSource * option error) * World;
  dataSources_CreateOrUpdate :
    string -> string -> string -> operationalinsights.DataSource -> World ->
    (operationalinsights.DataSource * option error) * World;
  dataSources_Delete :
    string -> string -> string -> World ->
    (Response * option error) * World
}.

(** The SDK calls a function issues, and what each returned. *)
Inductive Call :=
  | ReplicationFabrics_Get (resourceGroup vault name : string)
  | ReplicationFabrics_Create (resourceGroup vault name : string)
      (input : siterecovery.FabricCreationInput)
  | CreateFuture_WaitForCompletionRef
  | CreateFuture_Result
  | ReplicationFabrics_Delete (resourceGroup vault name : string)
  | DeleteFuture_WaitForCompletionRef
  | DeleteFuture_Result
  | DataSources_Get (resourceGroup workspace name : string)
  | DataSources_CreateOrUpdate (resourceGroup workspace name : string)
      (params : operationalinsights.DataSource)
  | DataSources_Delete (resourceGroup workspace name : string).

Inductive Reply :=
  | ReplyFabric (f : siterecovery.Fabric) (err : option error)
  | ReplyFuture (err : option error)
  | ReplyWait (err : option error)
  | ReplyResponse (r : Response) (err : option error)
  | ReplyDataSource (ds : operationalinsights.DataSource) (err : option error).

Definition Event : Type := Call * Reply.

Inductive CallKind :=
  | KGet | KSubmit | KWait | KResult | KDelete.

Definition kind (c : Call) : CallKind :=
  match c with
  | ReplicationFabrics_Get _ _ _ | DataSources_Get _ _ _ => KGet
  | ReplicationFabrics_Create _ _ _ _
  | DataSources_CreateOrUpdate _ _ _ _ => KSubmit
  | CreateFuture_WaitForCompletionRef
  | DeleteFuture_WaitForCompletionRef => KWait
  | CreateFuture_Result | DeleteFuture_Result => KResult
  | ReplicationFabrics_Delete _ _ _ | DataSources_Delete _ _ _ => KDelete
  end.

(** The requests that change the remote side. *)
Definition mutating (c : Call) : bool :=
  match kind c with
  | KSubmit | KDelete => true
  | _ => false
  end.

(** ** The monad *)

Inductive Outcome (A : Type) :=
  | Ok (a : A)
  | Err (e : error)
  | Panic.
Arguments Ok {A} a.
Arguments Err {A} e.
Arguments Panic {A}.

Record State `{remote : Remote} := mkState {
  world : World;
  calls : list Event;
  d : ResourceData
}.

Definition M `{remote : Remote} (A : Type) : Type :=
  State -> Outcome A * State.

Section Monad.
Context `{remote : Remote}.

Definition ret {A} (a : A) : M A := fun st => (Ok a, st).

Definition bind {A B} (m : M A) (k : A -> M B) : M B :=
  fun st =>
    match m st with
    | (Ok a, st') => k a st'
    | (Err e, st') => (Err e, st')
    | (Panic, st') => (Panic, st')
    end.

(** [return err] *)
Definition throw {A} (e : error) : M A := fun st => (Err e, st).

Definition panic {A} : M A := fun st => (Panic, st).

(** Dereferencing a pointer: a nil pointer panics. *)
Definition deref {A} (p : option A) : M A :=
  match p with
  | Some a => ret a
  | None => panic
  end.

(** One SDK call: the world moves on and the call is logged with its reply. *)
Definition issue {A} (c : Call) (reply : A -> Reply)
    (f : World -> A * World) : M A :=
  fun st =>
    let (a, w) := f (world st) in
    (Ok a, {| world := w; calls := calls st ++ [(c, reply a)]; d := d st |}).

(** Access to the [*schema.ResourceData] argument. *)
Definition with_d {A} (f : ResourceData -> A) : M A :=
  fun st => (Ok (f (d st)), st).

Definition update_d (f : ResourceData -> ResourceData) : M unit :=
  fun st =>
    (Ok tt, {| world := world st; calls := calls st; d := f (d st) |}).

(** [d.Get(key).(string)]: the type assertion panics on anything else. *)
Definition d_GetString (sch : gmap string Schema) (key : string) : M string :=
  fun st =>
    match ResourceData_Get sch (d st) key with
    | Some (VString s) => (Ok s, st)
    | _ => (Panic, st)
    end.

(** [d.Get(key).(int)] *)
Definition d_GetInt (sch : gmap string Schema) (key : string) : M Z :=
  fun st =>
    match ResourceData_Get sch (d st) key with
    | Some (VInt n) => (Ok n, st)
    | _ => (Panic, st)
    end.

Definition d_Id : M string := with_d rd_id.
Definition d_IsNewResource : M bool := with_d rd_isNew.
Definition d_SetId (id : string) : M unit :=
  update_d (fun d => ResourceData_SetId d id).
Definition d_Set (key : string) (v : Value) : M unit :=
  update_d (fun d => ResourceData_Set d key v).

End Monad.

Notation "'let!' x ':=' m 'in' k" := (bind m (fun x => k))
  (at level 10, x pattern, m at level 100, k at level 200).
Notation "'run!' m 'in' k" := (bind m (fun _ => k))
  (at level 10, m at level 100, k at level 200).

(** [schema.ResourceTimeout], in minutes. *)
Record ResourceTimeout := mkResourceTimeout {
  TimeoutCreate : Z;
  TimeoutRead : Z;
  TimeoutUpdate : Z;
  TimeoutDelete : Z
}.

(** [schema.Resource]: an operation the resource does not define is nil. *)
Record Resource `{remote : Remote} := mkResource {
  Create : option (M unit);
  Read : option (M unit);
  Update : option (M unit);
  Delete : option (M unit);
  Timeouts : option ResourceTimeout;
  Schema_ : gmap string Schema
}.

(** ** Recovery services replication fabric *)

Definition isLetter (c : ascii) : bool :=
  let n := nat_of_ascii c in
  ((65 <=? n) && (n <=? 90) || (97 <=? n) && (n <=? 122))%nat.

Definition isNameChar (c : ascii) : bool :=
  let n := nat_of_ascii c in
  (isLetter c || (48 <=? n) && (n <=? 57) || (n =? 45))%nat.

(** The expression [^[a-zA-Z][-a-zA-Z0-9]{1,49}$] *)
Definition nameRegexp (s : string) : bool :=
  match s with
  | String c r =>
      isLetter c
      && forallb isNameChar (list_ascii_of_string r)
      && ((1 <=? String.length r) && (String.length r <=? 49))%nat
  | EmptyString => false
  end.

Section ReplicationFabric.
Context `{helpers : Helpers} `{remote : Remote}.

Definition fabricSchema : gmap string Schema :=
  {[ "name" :=
       {| Type_ := TypeString; Required := true; ForceNew := true;
          ValidateFunc := Some (StringMatch nameRegexp
            "Replication Fabric name must be 2 - 50 characters long, start with a letter, contain only letters, numbers and hyphens.");
          DiffSuppressFunc := None |};
     "location" := locationSchema;
     "resource_group_name" := resourceGroupNameSchema;
     "vault_name" :=
       {| Type_ := TypeString; Required := true; ForceNew := true;
          ValidateFunc := Some (StringMatch nameRegexp
            "Recovery Service Vault name must be 2 - 50 characters long, start with a letter, contain only letters, numbers and hyphens.");
          DiffSuppressFunc := None |} ]}.

(** The client that [getReplicationFabricClientForRecoveryServicesVault]
    returns for a resource group and a vault. *)
Definition fabricClient_Get (resourceGroup vault name : string)
  : M (siterecovery.Fabric * option error) :=
  issue (ReplicationFabrics_Get resourceGroup vault name)
        (fun r => ReplyFabric r.1 r.2)
        (fabrics_Get resourceGroup vault name).

Definition fabricClient_Create (resourceGroup vault name : string)
    (input : siterecovery.FabricCreationInput)
  : M (CreateFuture * option error) :=
  issue (ReplicationFabrics_Create resourceGroup vault name input)
        (fun r => ReplyFuture r.2)
        (fabrics_Create resourceGroup vault name input).

Definition createFuture_Wait (future : CreateFuture) : M (option error) :=
  issue CreateFuture_WaitForCompletionRef ReplyWait
        (createFuture_WaitForCompletionRef future).

Definition createFuture_Res (future : CreateFuture)
  : M (siterecovery.Fabric * option error) :=
  issue CreateFuture_Result (fun r => ReplyFabric r.1 r.2)
        (createFuture_Result future).

Definition fabricClient_Delete (resourceGroup vault name : string)
  : M (DeleteFuture * option error) :=
  issue (ReplicationFabrics_Delete resourceGroup vault name)
        (fun r => ReplyFuture r.2)
        (fabrics_Delete resourceGroup vault name).

Definition deleteFuture_Wait (future : DeleteFuture) : M (option error) :=
  issue DeleteFuture_WaitForCompletionRef ReplyWait
        (deleteFuture_WaitForCompletionRef future).

Definition deleteFuture_Res (future : DeleteFuture)
  : M (Response * option error) :=
  issue DeleteFuture_Result (fun r => ReplyResponse r.1 r.2)
        (deleteFuture_Result future).

Definition resourceArmRecoveryServicesReplicationFabricRead : M unit :=
  let! i := d_Id in
  match parseAzureResourceID i with
  | Failure err => throw err
  | Success id =>
    let vault := index (Path id) "vaults" in
    let name := index (Path id) "replicationFabrics" in
    let resourceGroup := ResourceGroup id in
    let! (resp, err) := fabricClient_Get resourceGroup vault name in
    match err with
    | Some e =>
        if ResponseWasNotFound (siterecovery.FabricResponse resp)
        then run! d_SetId "" in ret tt
        else throw (Errorf
          "Error making Read request on Recovery Service Replication Fabric %q (Resource Group %q, Vault %q): %+v"
          [name; resourceGroup; vault] (Some e))
    | None =>
        run! d_Set "name" (ofStringPtr (siterecovery.Name resp)) in
        run! d_Set "resource_group_name" (VString resourceGroup) in
        run! d_Set "vault_name" (VString vault) in
        let! properties := deref (siterecovery.FabricProps resp) in
        let! customDetails :=
          deref (siterecovery.FabricCustomDetails properties) in
        match siterecovery.AsAzureFabricSpecificDetails customDetails with
        | (azureDetails, true) =>
            let! azureDetails := deref azureDetails in
            match siterecovery.DetailsLocation azureDetails with
            | Some location =>
                run! d_Set "location"
                       (VString (azureRMNormalizeLocation location)) in
                ret tt
            | None => ret tt
            end
        | (_, false) => ret tt
        end
    end
  end.

Definition resourceArmRecoveryServicesReplicationFabricCreate : M unit :=
  let! name := d_GetString fabricSchema "name" in
  let! vault := d_GetString fabricSchema "vault_name" in
  let! resourceGroup := d_GetString fabricSchema "resource_group_name" in
  let! location := d_GetString fabricSchema "location" in
  let! isNew := d_IsNewResource in
  run! (if requireResourcesToBeImported && isNew
        then
          let! (existing, err) :=
            fabricClient_Get resourceGroup vault name in
          run! (match err with
                | Some e =>
                    if negb (ResponseWasNotFound
                               (siterecovery.FabricResponse existing))
                    then throw (Errorf
                      "Error checking for presence of existing Recovery Service Replication Fabric %q (Resource Group %q, vault %q): %+v"
                      [name; resourceGroup; name] (Some e))
                    else ret tt
                | None => ret tt
                end) in
          match siterecovery.ID existing with
          | Some id =>
              if negb (String.eqb id "")
              then throw (ImportAsExistsError
                            "azurerm_recovery_services_replication_fabric" id)
              else ret tt
          | None => ret tt
          end
        else ret tt) in
  let azureInput :=
    {| siterecovery.Location := Some location;
       siterecovery.InstanceType_ := siterecovery.InstanceTypeAzure |} in
  let fabric :=
    {| siterecovery.Properties :=
         Some {| siterecovery.CustomDetails :=
                   siterecovery.AzureInput azureInput |} |} in
  let! (future, err) := fabricClient_Create resourceGroup vault name fabric in
  match err with
  | Some e => throw (Errorf
      "Error creating/updating Recovery Service Vault %q (Resource Group %q, Vault %q): %+v"
      [name; vault; resourceGroup] (Some e))
  | None =>
    let! err := createFuture_Wait future in
    match err with
    | Some e => throw (Errorf
        "Error creating/updating Recovery Service Vault %q (Resource Group %q, Vault %q): %+v"
        [name; vault; resourceGroup] (Some e))
    | None =>
      let! (result, err) := createFuture_Res future in
      match err with
      | Some e => throw (Errorf
          "Error creating/updating Recovery Service Vault %q (Resource Group %q, Vault %q): %+v"
          [name; vault; resourceGroup] (Some e))
      | None =>
        let! id := deref (siterecovery.ID result) in
        run! d_SetId id in
        resourceArmRecoveryServicesReplicationFabricRead
      end
    end
  end.

Definition resourceArmRecoveryServicesReplicationFabricDelete : M unit :=
  let! i := d_Id in
  match parseAzureResourceID i with
  | Failure err => throw err
  | Success id =>
    let vault := index (Path id) "vaults" in
    let name := index (Path id) "replicationFabrics" in
    let resourceGroup := ResourceGroup id in
    let! (future, err) := fabricClient_Delete resourceGroup vault name in
    match err with
    | Some e => throw (Errorf
        "Error issuing delete request for Recovery Service Replication Fabric %q (Resource Group %q, Vault %q): %+v"
        [name; vault; resourceGroup] (Some e))
    | None =>
      let! err := deleteFuture_Wait future in
      match err with
      | Some e => throw (Errorf
          "Error issuing delete request for Recovery Service Replication Fabric %q (Resource Group %q, Vault %q): %+v"
          [name; vault; resourceGroup] (Some e))
      | None =>
        let! (resp, err) := deleteFuture_Res future in
        match err with
        | Some e =>
            if negb (ResponseWasNotFound resp)
            then throw (Errorf
              "Deletion request failed for Recovery Service Replication Fabric %q (Resource Group %q, Vault %q): %+v"
              [name; vault; resourceGroup] (Some e))
            else ret tt
        | None => ret tt
        end
      end
    end
  end.

Definition resourceArmRecoveryServicesReplicationFabric : Resource :=
  {| Create := Some resourceArmRecoveryServicesReplicationFabricCreate;
     Read := Some resourceArmRecoveryServicesReplicationFabricRead;
     Update := None;
     Delete := Some resourceArmRecoveryServicesReplicationFabricDelete;
     Timeouts := None;
     Schema_ := fabricSchema |}.

End ReplicationFabric.

(** ** [encoding/json] on the property document

    Documents are trees; their rendering as text is not modelled, and a
    string is the text the host handed over. *)

Inductive number :=
  | NInteger (z : Z)
  | NFraction.

Inductive json :=
  | JNull
  | JBool (b : bool)
  | JNumber (n : number)
  | JString (s : string)
  | JArray (l : list json)
  | JObject (members : list (string * json)).

(** The [float64] nearest to an integer: 53 bits of significand, ties to
    even. *)
Definition float64_of_Z (z : Z) : Z :=
  let a := Z.abs z in
  if (a <? 2 ^ 53)%Z then z
  else
    let e := (Z.log2 a - 52)%Z in
    let q := (a / 2 ^ e)%Z in
    let r := (a mod 2 ^ e)%Z in
    let half := (2 ^ (e - 1))%Z in
    let q' := if ((half <? r) || ((r =? half) && Z.odd q))%Z
              then (q + 1)%Z else q in
    (Z.sgn z * (q' * 2 ^ e))%Z.

Definition float64_of_number (n : number) : float64 :=
  match n with
  | NInteger z => FIntegral (float64_of_Z z)
  | NFraction => FFractional
  end.

(** [json.Unmarshal] into an [interface{}], as the SDK does with the
    properties of a response: numbers become [float64], objects become maps
    in which a later member replaces an earlier one of the same name. *)
Fixpoint decodeInterface (j : json) : GoValue :=
  match j with
  | JNull => GNil
  | JBool b => GBool b
  | JNumber n => GFloat (float64_of_number n)
  | JString s => GString s
  | JArray l => GSlice (map decodeInterface l)
  | JObject members =>
      GMap (fold_left
              (fun m kv => <[fst kv := decodeInterface (snd kv)]> m)
              members ∅)
  end.

(** [json.Marshal] of the property struct: one member per field, named by
    its tag, in declaration order. *)
Definition Marshal (p : dataSourceWindowsPerformanceCounterProperty) : json :=
  JObject [ ("counterName", JString (CounterName p));
            ("instanceName", JString (InstanceName p));
            ("intervalSeconds", JNumber (NInteger (IntervalSeconds p)));
            ("objectName", JString (ObjectName p)) ].

(** The text [structure.FlattenJsonToString] returns: the empty string, or
    an object whose members [json.Marshal] has sorted by name. *)
Inductive Document :=
  | DocEmpty
  | DocObject (members : list (string * GoValue)).

Definition key_le (a b : string * GoValue) : Prop :=
  Is_true (String.leb (fst a) (fst b)).

#[local] Instance key_le_dec a b : Decision (key_le a b).
Proof. unfold key_le. apply _. Defined.

(** [structure.FlattenJsonToString] *)
Definition FlattenJsonToString (input : gmap string GoValue) : result Document :=
  if (size input =? 0)%nat then Success DocEmpty
  else Success (DocObject (merge_sort key_le (map_to_list input))).

Inductive Field :=
  | FCounterName | FInstanceName | FIntervalSeconds | FObjectName.

Definition fields : list Field :=
  [FCounterName; FInstanceName; FIntervalSeconds; FObjectName].

Definition tag (f : Field) : string :=
  match f with
  | FCounterName => "counterName"
  | FInstanceName => "instanceName"
  | FIntervalSeconds => "intervalSeconds"
  | FObjectName => "objectName"
  end.

Definition zeroProperty : dataSourceWindowsPerformanceCounterProperty :=
  {| CounterName := ""; InstanceName := ""; IntervalSeconds := 0;
     ObjectName := "" |}.

Definition UnmarshalTypeError (f : Field) : error :=
  Errorf "json: cannot unmarshal value into Go struct field of type" [tag f]
         None.

(** Storing a decoded member into a field.  A null leaves the field as it
    is; a value of the wrong shape, or a number that is no [int], leaves it
    as it is and reports an error. *)
Definition setField (f : Field) (v : GoValue)
    (p : dataSourceWindowsPerformanceCounterProperty)
  : dataSourceWindowsPerformanceCounterProperty * option error :=
  match v, f with
  | GNil, _ => (p, None)
  | GString s, FCounterName =>
      ({| CounterName := s; InstanceName := InstanceName p;
          IntervalSeconds := IntervalSeconds p; ObjectName := ObjectName p |},
       None)
  | GString s, FInstanceName =>
      ({| CounterName := CounterName p; InstanceName := s;
          IntervalSeconds := IntervalSeconds p; ObjectName := ObjectName p |},
       None)
  | GString s, FObjectName =>
      ({| CounterName := CounterName p; InstanceName := InstanceName p;
          IntervalSeconds := IntervalSeconds p; ObjectName := s |},
       None)
  | GFloat (FIntegral z), FIntervalSeconds =>
      if ((- 2 ^ 63 <=? z) && (z <? 2 ^ 63))%Z
      then ({| CounterName := CounterName p; InstanceName := InstanceName p;
               IntervalSeconds := z; ObjectName := ObjectName p |}, None)
      else (p, Some (UnmarshalTypeError f))
  | _, _ => (p, Some (UnmarshalTypeError f))
  end.

Section Unmarshal.
Context `{helpers : Helpers}.

(** The field a member name selects: the one whose tag it equals, or else
    the first whose tag it equals up to case. *)
Definition findField (key : string) : option Field :=
  match List.find (fun f => String.eqb (tag f) key) fields with
  | Some f => Some f
  | None => List.find (fun f => equalFold (tag f) key) fields
  end.

Definition unmarshalMember
    (acc : dataSourceWindowsPerformanceCounterProperty * option error)
    (kv : string * GoValue)
  : dataSourceWindowsPerformanceCounterProperty * option error :=
  match findField (fst kv) with
  | None => acc
  | Some f =>
      let (p, e) := setField f (snd kv) (fst acc) in
      (p, match snd acc with Some e0 => Some e0 | None => e end)
  end.

(** [json.Unmarshal(text, &prop)]: members are stored in the order of the
    text; the first error is the one returned. *)
Definition Unmarshal (text : Document)
    (prop : dataSourceWindowsPerformanceCounterProperty)
  : dataSourceWindowsPerformanceCounterProperty * option error :=
  match text with
  | DocEmpty => (prop, Some (SdkError "unexpected end of JSON input"))
  | DocObject members => fold_left unmarshalMember members (prop, None)
  end.

End Unmarshal.

(** ** Log Analytics data source: Windows performance counter *)

Section WindowsPerformanceCounter.
Context `{helpers : Helpers} `{remote : Remote}.

Definition counterSchema : gmap string Schema :=
  {[ "name" :=
       {| Type_ := TypeString; Required := true; ForceNew := true;
          ValidateFunc := Some StringIsNotEmpty;
          DiffSuppressFunc := None |};
     "resource_group_name" := SchemaResourceGroupName;
     "workspace_name" :=
       {| Type_ := TypeString; Required := true; ForceNew := true;
          ValidateFunc := Some ValidateAzureRmLogAnalyticsWorkspaceName;
          DiffSuppressFunc := Some CaseDifference |};
     "counter_name" :=
       {| Type_ := TypeString; Required := true; ForceNew := false;
          ValidateFunc := Some StringIsNotEmpty;
          DiffSuppressFunc := None |};
     "instance_name" :=
       {| Type_ := TypeString; Required := true; ForceNew := false;
          ValidateFunc := Some StringIsNotEmpty;
          DiffSuppressFunc := None |};
     "interval_seconds" :=
       {| Type_ := TypeInt; Required := true; ForceNew := false;
          ValidateFunc := Some (IntBetween 10 MaxInt32);
          DiffSuppressFunc := None |};
     "object_name" :=
       {| Type_ := TypeString; Required := true; ForceNew := false;
          ValidateFunc := Some StringIsNotEmpty;
          DiffSuppressFunc := None |} ]}.

(** The [LogAnalytics.DataSourcesClient] of the provider client. *)
Definition client_Get (resourceGroup workspaceName name : string)
  : M (operationalinsights.DataSource * option error) :=
  issue (DataSources_Get resourceGroup workspaceName name)
        (fun r => ReplyDataSource r.1 r.2)
        (dataSources_Get resourceGroup workspaceName name).

Definition client_CreateOrUpdate (resourceGroup workspaceName name : string)
    (params : operationalinsights.DataSource)
  : M (operationalinsights.DataSource * option error) :=
  issue (DataSources_CreateOrUpdate resourceGroup workspaceName name params)
        (fun r => ReplyDataSource r.1 r.2)
        (dataSources_CreateOrUpdate resourceGroup workspaceName name params).

Definition client_Delete (resourceGroup workspaceName name : string)
  : M (Response * option error) :=
  issue (DataSources_Delete resourceGroup workspaceName name)
        (fun r => ReplyResponse r.1 r.2)
        (dataSources_Delete resourceGroup workspaceName name).

(** [props.(map[string]interface{})] *)
Definition assertMap (props : GoValue) : M (gmap string GoValue) :=
  match props with
  | GMap m => ret m
  | _ => panic
  end.

Definition resourceArmLogAnalyticsDataSourceWindowsPerformanceCounterRead
  : M unit :=
  let! i := d_Id in
  match LogAnalyticsDataSourceID i with
  | Failure err => throw err
  | Success id =>
    let! (resp, err) :=
      client_Get (ds_ResourceGroup id) (ds_Workspace id) (ds_Name id) in
    match err with
    | Some e =>
        if ResponseWasNotFound (operationalinsights.DataSourceResponse resp)
        then run! d_SetId "" in ret tt
        else throw (Errorf
          "failed to retrieve Log Analytics DataSource Windows Performance Counter %q (Resource Group %q / Workspace: %q): %+v"
          [ds_Name id; ds_ResourceGroup id; ds_Workspace id] (Some e))
    | None =>
        run! d_Set "name" (ofStringPtr (operationalinsights.Name resp)) in
        run! d_Set "resource_group_name" (VString (ds_ResourceGroup id)) in
        run! d_Set "workspace_name" (VString (ds_Workspace id)) in
        match operationalinsights.Properties resp with
        | GNil => ret tt
        | props =>
            let! input := assertMap props in
            match FlattenJsonToString input with
            | Failure e => throw (Errorf
                "failed to flatten properties map to json for Log Analytics DataSource Windows Performance Counter %q (Resource Group %q / Workspace: %q): %+v"
                [ds_Name id; ds_ResourceGroup id; ds_Workspace id] (Some e))
            | Success propStr =>
                match Unmarshal propStr zeroProperty with
                | (_, Some e) => throw (Errorf
                    "failed to decode properties json for Log Analytics DataSource Windows Performance Counter %q (Resource Group %q / Workspace: %q): %+v"
                    [ds_Name id; ds_ResourceGroup id; ds_Workspace id]
                    (Some e))
                | (prop, None) =>
                    run! d_Set "counter_name" (VString (CounterName prop)) in
                    run! d_Set "instance_name"
                           (VString (InstanceName prop)) in
                    run! d_Set "interval_seconds"
                           (VInt (IntervalSeconds prop)) in
                    run! d_Set "object_name" (VString (ObjectName prop)) in
                    ret tt
                end
            end
        end
    end
  end.

Definition resourceArmLogAnalyticsDataSourceWindowsPerformanceCounterCreateUpdate
  : M unit :=
  let! name := d_GetString counterSchema "name" in
  let! resourceGroup := d_GetString counterSchema "resource_group_name" in
  let! workspaceName := d_GetString counterSchema "workspace_name" in
  let! isNew := d_IsNewResource in
  run! (if isNew
        then
          let! (resp, err) := client_Get resourceGroup workspaceName name in
          run! (match err with
                | Some e =>
                    if negb (ResponseWasNotFound
                               (operationalinsights.DataSourceResponse resp))
                    then throw (Errorf
                      "failed to check for existing Log Analytics DataSource Windows Performance Counter %q (Resource Group %q / Workspace: %q): %+v"
                      [name; resourceGroup; workspaceName] (Some e))
                    else ret tt
                | None => ret tt
                end) in
          if negb (ResponseWasNotFound
                     (operationalinsights.DataSourceResponse resp))
          then
            let! id := deref (operationalinsights.ID resp) in
            throw (ImportAsExistsError
              "azurerm_log_analytics_datasource_windows_performance_counter"
              id)
          else ret tt
        else ret tt) in
  let! counterName := d_GetString counterSchema "counter_name" in
  let! instanceName := d_GetString counterSchema "instance_name" in
  let! intervalSeconds := d_GetInt counterSchema "interval_seconds" in
  let! objectName := d_GetString counterSchema "object_name" in
  let prop :=
    {| CounterName := counterName; InstanceName := instanceName;
       IntervalSeconds := intervalSeconds; ObjectName := objectName |} in
  let params :=
    {| operationalinsights.DataSourceResponse := {| StatusCode := None |};
       operationalinsights.Properties := GProperty prop;
       operationalinsights.Kind :=
         operationalinsights.WindowsPerformanceCounter;
       operationalinsights.ID := None;
       operationalinsights.Name := None |} in
  let! (_, err) :=
    client_CreateOrUpdate resourceGroup workspaceName name params in
  match err with
  | Some e => throw (Errorf
      "failed to create Log Analytics DataSource Windows Performance Counter %q (Resource Group %q / Workspace: %q): %+v"
      [name; resourceGroup; workspaceName] (Some e))
  | None =>
    let! (resp, err) := client_Get resourceGroup workspaceName name in
    match err with
    | Some e => throw (Errorf
        "failed to retrieve Log Analytics DataSource Windows Performance Counter %q (Resource Group %q): %+v"
        [name; resourceGroup] (Some e))
    | None =>
      match operationalinsights.ID resp with
      | Some id =>
          if String.eqb id ""
          then throw (Errorf
            "Cannot read ID for Log Analytics DataSource Windows Performance Counter %q (Resource Group %q)"
            [name; resourceGroup] None)
          else
            run! d_SetId id in
            resourceArmLogAnalyticsDataSourceWindowsPerformanceCounterRead
      | None => throw (Errorf
          "Cannot read ID for Log Analytics DataSource Windows Performance Counter %q (Resource Group %q)"
          [name; resourceGroup] None)
      end
    end
  end.

Definition resourceArmLogAnalyticsDataSourceWindowsPerformanceCounterDelete
  : M unit :=
  let! i := d_Id in
  match LogAnalyticsDataSourceID i with
  | Failure err => throw err
  | Success id =>
    let! (_, err) :=
      client_Delete (ds_ResourceGroup id) (ds_Workspace id) (ds_Name id) in
    match err with
    | Some e => throw (Errorf
        "failed to delete Log Analytics DataSource Windows Performance Counter %q (Resource Group %q / Workspace: %q): %+v"
        [ds_Name id; ds_ResourceGroup id; ds_Workspace id] (Some e))
    | None => ret tt
    end
  end.

Definition resourceArmLogAnalyticsDataSourceWindowsPerformanceCounter
  : Resource :=
  {| Create :=
       Some resourceArmLogAnalyticsDataSourceWindowsPerformanceCounterCreateUpdate;
     Read :=
       Some resourceArmLogAnalyticsDataSourceWindowsPerformanceCounterRead;
     Update :=
       Some resourceArmLogAnalyticsDataSourceWindowsPerformanceCounterCreateUpdate;
     Delete :=
       Some resourceArmLogAnalyticsDataSourceWindowsPerformanceCounterDelete;
     Timeouts :=
       Some {| TimeoutCreate := 30; TimeoutRead := 5; TimeoutUpdate := 30;
               TimeoutDelete := 30 |};
     Schema_ := counterSchema |}.

End WindowsPerformanceCounter.

(** ** Resource identifier codec *)

Module IdCodec.

Record ResourceIdentifier := mkResourceIdentifier {
  subscriptionId : string;
  resourceGroup : string;
  parentPath : string;
  resourceName : string
}.

(** The names of the segments of one kind of resource path:
    [/subscriptionsKey/<subscription>/resourceGroupsKey/<group>/providersKey/<namespace>/parentKey/<parent>/nameKey/<name>]. *)
Record Layout := mkLayout {
  subscriptionsKey : string;
  resourceGroupsKey : string;
  providersKey : string;
  namespace : string;
  parentKey : string;
  nameKey : string
}.

Definition isSlash (c : ascii) : bool := Ascii.eqb c "/".

(** [strings.Split(s, "/")] *)
Fixpoint split (s : string) : list string :=
  match s with
  | EmptyString => [EmptyString]
  | String c r =>
      if isSlash c then EmptyString :: split r
      else match split r with
           | h :: t => String c h :: t
           | [] => [String c EmptyString]
           end
  end.

(** [strings.Join(l, "/")] *)
Fixpoint join (l : list string) : string :=
  match l with
  | [] => EmptyString
  | [x] => x
  | x :: t => x ++ String "/" (join t)
  end.

Fixpoint slashFree (s : string) : bool :=
  match s with
  | EmptyString => true
  | String c r => negb (isSlash c) && slashFree r
  end.

Definition nonEmpty (s : string) : bool := negb (String.eqb s "").

(** Modelled from the spec: [format], the inverse of [parse]; the codec
    is declared outside the two source files.  A [ResourceIdentifier] is
    written as the slash-delimited path of its named segments. *)
Definition format (L : Layout) (x : ResourceIdentifier) : string :=
  join [ ""; subscriptionsKey L; subscriptionId x;
         resourceGroupsKey L; resourceGroup x;
         providersKey L; namespace L;
         parentKey L; parentPath x;
         nameKey L; resourceName x ].

(** Modelled from the spec: [parse], declared outside the two source
    files, "splits the slash-delimited resource path into named segments;
    fails if required segments (resource group, parent, name) are
    absent", with the error MalformedID. *)
Definition parse (L : Layout) (id : string) : result ResourceIdentifier :=
  match split id with
  | [lead; k1; sub; k2; rg; k3; ns; k4; parent; k5; name] =>
      if String.eqb lead ""
         && String.eqb k1 (subscriptionsKey L) && nonEmpty sub
         && String.eqb k2 (resourceGroupsKey L) && nonEmpty rg
         && String.eqb k3 (providersKey L) && String.eqb ns (namespace L)
         && String.eqb k4 (parentKey L) && nonEmpty parent
         && String.eqb k5 (nameKey L) && nonEmpty name
      then Success {| subscriptionId := sub; resourceGroup := rg;
                      parentPath := parent; resourceName := name |}
      else Failure (ParseError "MalformedID")
  | _ => Failure (ParseError "MalformedID")
  end.

(** A valid identifier: every field is present and is one segment. *)
Definition valid (x : ResourceIdentifier) : Prop :=
  Forall (fun s => nonEmpty s = true /\ slashFree s = true)
    [subscriptionId x; resourceGroup x; parentPath x; resourceName x].

Definition wellFormed (L : Layout) : Prop :=
  Forall (fun s => slashFree s = true)
    [subscriptionsKey L; resourceGroupsKey L; providersKey L; namespace L;
     parentKey L; nameKey L].

Definition fabricLayout : Layout :=
  {| subscriptionsKey := "subscriptions";
     resourceGroupsKey := "resourceGroups";
     providersKey := "providers";
     namespace := "Microsoft.RecoveryServices";
     parentKey := "vaults";
     nameKey := "replicationFabrics" |}.

Definition dataSourceLayout : Layout :=
  {| subscriptionsKey := "subscriptions";
     resourceGroupsKey := "resourceGroups";
     providersKey := "providers";
     namespace := "Microsoft.OperationalInsights";
     parentKey := "workspaces";
     nameKey := "dataSources" |}.

End IdCodec.

(** ** A concrete provider and a scripted remote side, to run the adapters *)

Module Example.

Definition toLower (c : ascii) : ascii :=
  let n := nat_of_ascii c in
  if ((65 <=? n) && (n <=? 90))%nat then ascii_of_nat (n + 32) else c.

Fixpoint lower (s : string) : string :=
  match s with
  | EmptyString => EmptyString
  | String c r => String (toLower c) (lower r)
  end.

Fixpoint withoutSpaces (s : string) : string :=
  match s with
  | EmptyString => EmptyString
  | String c r =>
      if Ascii.eqb c " " then withoutSpaces r else String c (withoutSpaces r)
  end.

(** Modelled from the spec: [azureRMNormalizeLocation], declared outside
    the two source files; the scenario of the spec has "westus" come back
    as the normalized location. *)
Definition normalizeLocation (s : string) : string :=
  withoutSpaces (lower s).

(** Modelled from the spec: the shared schema of a create-only required
    string attribute, standing for [locationSchema()],
    [resourceGroupNameSchema()] and [azure.SchemaResourceGroupName()],
    which are declared outside the two source files. *)
Definition createOnlyString : Schema :=
  {| Type_ := TypeString; Required := true; ForceNew := true;
     ValidateFunc := None; DiffSuppressFunc := None |}.

(** Modelled from the spec: [parseAzureResourceID], through the
    identifier codec. *)
Definition parseFabricID (id : string) : result ResourceID :=
  match IdCodec.parse IdCodec.fabricLayout id with
  | Success x =>
      Success {| SubscriptionID := IdCodec.subscriptionId x;
                 ResourceGroup := IdCodec.resourceGroup x;
                 Provider := IdCodec.namespace IdCodec.fabricLayout;
                 Path := {[ "vaults" := IdCodec.parentPath x;
                            "replicationFabrics" := IdCodec.resourceName x ]} |}
  | Failure e => Failure e
  end.

(** Modelled from the spec: [parse.LogAnalyticsDataSourceID], through the
    identifier codec. *)
Definition parseDataSourceID (id : string) : result LogAnalyticsDataSourceId :=
  match IdCodec.parse IdCodec.dataSourceLayout id with
  | Success x =>
      Success {| ds_ResourceGroup := IdCodec.resourceGroup x;
                 ds_Workspace := IdCodec.parentPath x;
                 ds_Name := IdCodec.resourceName x |}
  | Failure e => Failure e
  end.

(** Modelled from the spec: [utils.ResponseWasNotFound], declared outside
    the two source files: the remote API reported not-found. *)
Definition notFound (r : Response) : bool :=
  match StatusCode r with
  | Some c => (c =? 404)%Z
  | None => false
  end.

Definition provider (strict : bool) : Helpers :=
  {| requireResourcesToBeImported := strict;
     ResponseWasNotFound := notFound;
     parseAzureResourceID := parseFabricID;
     LogAnalyticsDataSourceID := parseDataSourceID;
     azureRMNormalizeLocation := normalizeLocation;
     locationSchema := createOnlyString;
     resourceGroupNameSchema := createOnlyString;
     SchemaResourceGroupName := createOnlyString;
     CaseDifference := fun _ old new => String.eqb (lower old) (lower new);
     ValidateAzureRmLogAnalyticsWorkspaceName := StringIsNotEmpty;
     equalFold := fun s t => String.eqb (lower s) (lower t);
     locationSchema_Type := eq_refl;
     resourceGroupNameSchema_Type := eq_refl;
     SchemaResourceGroupName_Type := eq_refl |}.

(** The provider with the import-safety switch set, and without. *)
Definition strict : Helpers := provider true.
Definition lax : Helpers := provider false.

(** A remote side that answers from a script: each kind of call takes the
    next scripted reply of its kind, and answers not-found once its script
    has run out. *)
Record Script := mkScript {
  fabricGets : list (siterecovery.Fabric * option error);
  fabricCreates : list (option error);
  fabricWaits : list (option error);
  fabricResults : list (siterecovery.Fabric * option error);
  fabricDeletes : list (option error);
  fabricDeleteResults : list (Response * option error);
  dataSourceGets : list (operationalinsights.DataSource * option error);
  dataSourceCreates : list (option error);
  dataSourceDeletes : list (Response * option error)
}.

Definition ok : Response := {| StatusCode := Some 200%Z |}.
Definition missing : Response := {| StatusCode := Some 404%Z |}.
Definition failed : Response := {| StatusCode := Some 500%Z |}.

Definition noFabric : siterecovery.Fabric * option error :=
  ({| siterecovery.FabricResponse := missing; siterecovery.ID := None;
      siterecovery.Name := None; siterecovery.FabricProps := None |},
   Some (SdkError "StatusCode=404")).

Definition noDataSource : operationalinsights.DataSource * option error :=
  ({| operationalinsights.DataSourceResponse := missing;
      operationalinsights.Properties := GNil;
      operationalinsights.Kind := "";
      operationalinsights.ID := None;
      operationalinsights.Name := None |},
   Some (SdkError "StatusCode=404")).

Definition next {A} (dflt : A) (l : list A) : A * list A :=
  match l with
  | a :: l' => (a, l')
  | [] => (dflt, [])
  end.

Definition scripted : Remote :=
  {| World := Script;
     CreateFuture := unit;
     DeleteFuture := unit;
     fabrics_Get := fun _ _ _ w =>
       let (a, l) := next noFabric (fabricGets w) in
       (a, {| fabricGets := l; fabricCreates := fabricCreates w;
              fabricWaits := fabricWaits w;
              fabricResults := fabricResults w;
              fabricDeletes := fabricDeletes w;
              fabricDeleteResults := fabricDeleteResults w;
              dataSourceGets := dataSourceGets w;
              dataSourceCreates := dataSourceCreates w;
              dataSourceDeletes := dataSourceDeletes w |});
     fabrics_Create := fun _ _ _ _ w =>
       let (a, l) := next None (fabricCreates w) in
       ((tt, a), {| fabricGets := fabricGets w; fabricCreates := l;
              fabricWaits := fabricWaits w;
              fabricResults := fabricResults w;
              fabricDeletes := fabricDeletes w;
              fabricDeleteResults := fabricDeleteResults w;
              dataSourceGets := dataSourceGets w;
              dataSourceCreates := dataSourceCreates w;
              dataSourceDeletes := dataSourceDeletes w |});
     createFuture_WaitForCompletionRef := fun _ w =>
       let (a, l) := next None (fabricWaits w) in
       (a, {| fabricGets := fabricGets w; fabricCreates := fabricCreates w;
              fabricWaits := l;
              fabricResults := fabricResults w;
              fabricDeletes := fabricDeletes w;
              fabricDeleteResults := fabricDeleteResults w;
              dataSourceGets := dataSourceGets w;
              dataSourceCreates := dataSourceCreates w;
              dataSourceDeletes := dataSourceDeletes w |});
     createFuture_Result := fun _ w =>
       let (a, l) := next noFabric (fabricResults w) in
       (a, {| fabricGets := fabricGets w; fabricCreates := fabricCreates w;
              fabricWaits := fabricWaits w;
              fabricResults := l;
              fabricDeletes := fabricDeletes w;
              fabricDeleteResults := fabricDeleteResults w;
              dataSourceGets := dataSourceGets w;
              dataSourceCreates := dataSourceCreates w;
              dataSourceDeletes := dataSourceDeletes w |});
     fabrics_Delete := fun _ _ _ w =>
       let (a, l) := next None (fabricDeletes w) in
       ((tt, a), {| fabricGets := fabricGets w;
              fabricCreates := fabricCreates w;
              fabricWaits := fabricWaits w;
              fabricResults := fabricResults w;
              fabricDeletes := l;
              fabricDeleteResults := fabricDeleteResults w;
              dataSourceGets := dataSourceGets w;
              dataSourceCreates := dataSourceCreates w;
              dataSourceDeletes := dataSourceDeletes w |});
     deleteFuture_WaitForCompletionRef := fun _ w =>
       let (a, l) := next None (fabricWaits w) in
       (a, {| fabricGets := fabricGets w; fabricCreates := fabricCreates w;
              fabricWaits := l;
              fabricResults := fabricResults w;
              fabricDeletes := fabricDeletes w;
              fabricDeleteResults := fabricDeleteResults w;
              dataSourceGets := dataSourceGets w;
              dataSourceCreates := dataSourceCreates w;
              dataSourceDeletes := dataSourceDeletes w |});
     deleteFuture_Result := fun _ w =>
       let (a, l) :=
         next (missing, Some (SdkError "StatusCode=404"))
              (fabricDeleteResults w) in
       (a, {| fabricGets := fabricGets w; fabricCreates := fabricCreates w;
              fabricWaits := fabricWaits w;
              fabricResults := fabricResults w;
              fabricDeletes := fabricDeletes w;
              fabricDeleteResults := l;
              dataSourceGets := dataSourceGets w;
              dataSourceCreates := dataSourceCreates w;
              dataSourceDeletes := dataSourceDeletes w |});
     dataSources_Get := fun _ _ _ w =>
       let (a, l) := next noDataSource (dataSourceGets w) in
       (a, {| fabricGets := fabricGets w; fabricCreates := fabricCreates w;
              fabricWaits := fabricWaits w;
              fabricResults := fabricResults w;
              fabricDeletes := fabricDeletes w;
              fabricDeleteResults := fabricDeleteResults w;
              dataSourceGets := l;
              dataSourceCreates := dataSourceCreates w;
              dataSourceDeletes := dataSourceDeletes w |});
     dataSources_CreateOrUpdate := fun _ _ _ params w =>
       let (a, l) := next None (dataSourceCreates w) in
       ((params, a), {| fabricGets := fabricGets w;
              fabricCreates := fabricCreates w;
              fabricWaits := fabricWaits w;
              fabricResults := fabricResults w;
              fabricDeletes := fabricDeletes w;
              fabricDeleteResults := fabricDeleteResults w;
              dataSourceGets := dataSourceGets w;
              dataSourceCreates := l;
              dataSourceDeletes := dataSourceDeletes w |});
     dataSources_Delete := fun _ _ _ w =>
       let (a, l) :=
         next (missing, Some (SdkError "StatusCode=404"))
              (dataSourceDeletes w) in
       (a, {| fabricGets := fabricGets w; fabricCreates := fabricCreates w;
              fabricWaits := fabricWaits w;
              fabricResults := fabricResults w;
              fabricDeletes := fabricDeletes w;
              fabricDeleteResults := fabricDeleteResults w;
              dataSourceGets := dataSourceGets w;
              dataSourceCreates := dataSourceCreates w;
              dataSourceDeletes := l |}) |}.

Definition idle : Script :=
  {| fabricGets := []; fabricCreates := []; fabricWaits := [];
     fabricResults := []; fabricDeletes := []; fabricDeleteResults := [];
     dataSourceGets := []; dataSourceCreates := [];
     dataSourceDeletes := [] |}.

Definition start (w : Script) (d : ResourceData) : @State scripted :=
  @mkState scripted w [] d.

(** The scenario of the spec: fabric1 in vault1 of rg1, at westus. *)
Definition fabricConfig : ResourceData :=
  {| rd_id := ""; rd_isNew := true;
     rd_attrs := {[ "name" := VString "fabric1";
                    "resource_group_name" := VString "rg1";
                    "vault_name" := VString "vault1";
                    "location" := VString "westus" ]} |}.

Definition fabricId : string :=
  "/subscriptions/sub1/resourceGroups/rg1/providers/Microsoft.RecoveryServices/vaults/vault1/replicationFabrics/fabric1".

Definition fabric1 : siterecovery.Fabric :=
  {| siterecovery.FabricResponse := ok;
     siterecovery.ID := Some fabricId;
     siterecovery.Name := Some "fabric1";
     siterecovery.FabricProps :=
       Some {| siterecovery.FabricCustomDetails :=
                 Some (siterecovery.AzureDetails
                         {| siterecovery.DetailsLocation :=
                              Some "West US" |}) |} |}.

Definition counterProperty : dataSourceWindowsPerformanceCounterProperty :=
  {| CounterName := "% Processor Time"; InstanceName := "_Total";
     IntervalSeconds := 60; ObjectName := "Processor" |}.

Definition counterConfig : ResourceData :=
  {| rd_id := ""; rd_isNew := true;
     rd_attrs := {[ "name" := VString "counter1";
                    "resource_group_name" := VString "rg1";
                    "workspace_name" := VString "ws1";
                    "counter_name" := VString "% Processor Time";
                    "instance_name" := VString "_Total";
                    "interval_seconds" := VInt 60;
                    "object_name" := VString "Processor" ]} |}.

Definition counterId : string :=
  "/subscriptions/sub1/resourceGroups/rg1/providers/Microsoft.OperationalInsights/workspaces/ws1/dataSources/counter1".

Definition counter1 : operationalinsights.DataSource :=
  {| operationalinsights.DataSourceResponse := ok;
     operationalinsights.Properties := decodeInterface (Marshal counterProperty);
     operationalinsights.Kind := operationalinsights.WindowsPerformanceCounter;
     operationalinsights.ID := Some counterId;
     operationalinsights.Name := Some "counter1" |}.

(** The tracked resources, as Read and Delete receive them. *)
Definition fabricTracked : ResourceData :=
  {| rd_id := fabricId; rd_isNew := false;
     rd_attrs := rd_attrs fabricConfig |}.

Definition counterTracked : ResourceData :=
  {| rd_id := counterId; rd_isNew := false;
     rd_attrs := rd_attrs counterConfig |}.

Definition serverError : option error := Some (SdkError "StatusCode=500").
Definition notFoundError : option error := Some (SdkError "StatusCode=404").

Definition fabricScript
    (gets : list (siterecovery.Fabric * option error))
    (creates waits : list (option error))
    (results : list (siterecovery.Fabric * option error))
    (deletes : list (option error))
    (deleteResults : list (Response * option error)) : Script :=
  {| fabricGets := gets; fabricCreates := creates; fabricWaits := waits;
     fabricResults := results; fabricDeletes := deletes;
     fabricDeleteResults := deleteResults;
     dataSourceGets := []; dataSourceCreates := [];
     dataSourceDeletes := [] |}.

Definition counterScript
    (gets : list (operationalinsights.DataSource * option error))
    (creates : list (option error))
    (deletes : list (Response * option error)) : Script :=
  {| fabricGets := []; fabricCreates := []; fabricWaits := [];
     fabricResults := []; fabricDeletes := []; fabricDeleteResults := [];
     dataSourceGets := gets; dataSourceCreates := creates;
     dataSourceDeletes := deletes |}.

(** Create of the fabric when fabric1 is already there. *)
Definition createExistingFabric : @State scripted :=
  start (fabricScript [(fabric1, None)] [] [] [] [] []) fabricConfig.

Definition createExistingCounter : @State scripted :=
  start (counterScript [(counter1, None)] [] []) counterConfig.

(** Read of a tracked resource that is gone. *)
Definition readMissingFabric : @State scripted :=
  start (fabricScript [noFabric] [] [] [] [] []) fabricTracked.

Definition readMissingCounter : @State scripted :=
  start (counterScript [noDataSource] [] []) counterTracked.

(** Read of a counter whose response has no properties. *)
Definition bareCounter : operationalinsights.DataSource :=
  {| operationalinsights.DataSourceResponse := ok;
     operationalinsights.Properties := GNil;
     operationalinsights.Kind := operationalinsights.WindowsPerformanceCounter;
     operationalinsights.ID := Some counterId;
     operationalinsights.Name := Some "counter1" |}.

Definition readBareCounter : @State scripted :=
  start (counterScript [(bareCounter, None)] [] []) counterTracked.

(** Delete of the fabric, twice: the operation succeeds the first time
    and its result is not-found the second time. *)
Definition deleteFabricTwice : @State scripted :=
  start (fabricScript [] [] [None; None] [] [None; None]
           [(ok, None); (missing, notFoundError)])
        fabricTracked.

(** Delete of the counter when the remote Delete answers not-found. *)
Definition deleteMissingCounter : @State scripted :=
  start (counterScript [] [] [(missing, notFoundError)]) counterTracked.

Definition deleteCounter : @State scripted :=
  start (counterScript [] [] [(ok, None)]) counterTracked.

(** Create of the fabric when nothing is there, the creation succeeds and
    the Get of the closing Read fails with a server error. *)
Definition brokenFabric : siterecovery.Fabric :=
  {| siterecovery.FabricResponse := failed; siterecovery.ID := None;
     siterecovery.Name := None; siterecovery.FabricProps := None |}.

Definition createThenReadFails : @State scripted :=
  start (fabricScript [noFabric; (brokenFabric, serverError)]
           [None] [None] [(fabric1, None)] [] [])
        fabricConfig.

(** Create of the fabric and of the counter when all goes well. *)
Definition createFabric : @State scripted :=
  start (fabricScript [noFabric; (fabric1, None)]
           [None] [None] [(fabric1, None)] [] [])
        fabricConfig.

Definition createFabricUnguarded : @State scripted :=
  start (fabricScript [(fabric1, None)] [None] [None] [(fabric1, None)] [] [])
        fabricConfig.

Definition createCounter : @State scripted :=
  start (counterScript [noDataSource; (counter1, None); (counter1, None)]
           [None] [])
        counterConfig.

(** Read of the fabric right after an import: only the identifier is
    known. *)
Definition readFabric : @State scripted :=
  start (fabricScript [(fabric1, None)] [] [] [] [] [])
        {| rd_id := fabricId; rd_isNew := false; rd_attrs := ∅ |}.

Definition fabric1Identifier : IdCodec.ResourceIdentifier :=
  {| IdCodec.subscriptionId := "sub1"; IdCodec.resourceGroup := "rg1";
     IdCodec.parentPath := "vault1"; IdCodec.resourceName := "fabric1" |}.

End Example.

(** ** Vocabulary of the statements *)

(** The string stored under a key, as a read through a string-typed schema
    entry yields it. *)
Definition stringAttr (d : ResourceData) (k : string) : string :=
  match rd_attrs d !! k with
  | Some (VString s) => s
  | _ => ""
  end.

Definition intAttr (d : ResourceData) (k : string) : Z :=
  match rd_attrs d !! k with
  | Some (VInt n) => n
  | _ => 0%Z
  end.

(** A Get reports an existing resource: it succeeded, the response is not a
    not-found response, and it carries a non-empty ID. *)
Definition reportsExisting `{helpers : Helpers}
    (r : Response) (id' : option string) (err : option error) (id : string)
  : Prop :=
  err = None /\ ResponseWasNotFound r = false /\ id' = Some id /\ id <> "".

(** The kinds of the calls of a log, in order. *)
Definition kinds (l : list Event) : list CallKind := map (fun ev => kind (fst ev)) l.

(** The input Create builds for a fabric at a location. *)
Definition azureFabric (location : string) : siterecovery.FabricCreationInput :=
  {| siterecovery.Properties :=
       Some {| siterecovery.CustomDetails :=
                 siterecovery.AzureInput
                   {| siterecovery.Location := Some location;
                      siterecovery.InstanceType_ :=
                        siterecovery.InstanceTypeAzure |} |} |}.

(** The existence check of Create found no resource, so that Create went on
    to submit its request. *)
Definition checkPassed `{helpers : Helpers} (ev : Event) : Prop :=
  match ev with
  | (ReplicationFabrics_Get _ _ _, ReplyFabric existing err) =>
      (err = None
       \/ ResponseWasNotFound (siterecovery.FabricResponse existing) = true)
      /\ (siterecovery.ID existing = None
          \/ siterecovery.ID existing = Some "")
  | (DataSources_Get _ _ _, ReplyDataSource resp err) =>
      ResponseWasNotFound (operationalinsights.DataSourceResponse resp) = true
  | _ => False
  end.

(** The parameters Create sends for a performance counter. *)
Definition counterParams (d : ResourceData) : operationalinsights.DataSource :=
  {| operationalinsights.DataSourceResponse := {| StatusCode := None |};
     operationalinsights.Properties :=
       GProperty {| CounterName := stringAttr d "counter_name";
                    InstanceName := stringAttr d "instance_name";
                    IntervalSeconds := intAttr d "interval_seconds";
                    ObjectName := stringAttr d "object_name" |};
     operationalinsights.Kind := operationalinsights.WindowsPerformanceCounter;
     operationalinsights.ID := None;
     operationalinsights.Name := None |}.

(** A property record survives the trip to the remote side and back: the
    SDK decodes the document that [json.Marshal] made of it into a map, and
    that map, flattened to text and unmarshalled as Read does, gives the
    record again. *)
Definition roundTrips `{helpers : Helpers}
    (p : dataSourceWindowsPerformanceCounterProperty) : Prop :=
  exists input text,
    decodeInterface (Marshal p) = GMap input
    /\ FlattenJsonToString input = Success text
    /\ Unmarshal text zeroProperty = (p, None).

(** ** Further vocabulary *)

(** The error with which an SDK call answered, as the log has it. *)
Definition replyError (r : Reply) : option error :=
  match r with
  | ReplyFabric _ err | ReplyFuture err | ReplyWait err
  | ReplyResponse _ err | ReplyDataSource _ err => err
  end.

(** The values [json.Unmarshal] stores into a field without complaint: a
    null (which it skips), a string for a string field, a number that is an
    [int] for the interval. *)
Definition storable (f : Field) (v : GoValue) : bool :=
  match v, f with
  | GNil, _ => true
  | GString _, (FCounterName | FInstanceName | FObjectName) => true
  | GFloat (FIntegral z), FIntervalSeconds =>
      ((- 2 ^ 63 <=? z) && (z <? 2 ^ 63))%Z
  | _, _ => false
  end.

(** The existence check of the fabric's Create, seen from outside: either
    the guard does not apply, nothing is asked and the world is as it was,
    or the Get is issued and finds nothing. *)
Definition fabricChecked `{helpers : Helpers} `{remote : Remote}
    (st : State) (w0 : World) (pre : list Event) : Prop :=
  (requireResourcesToBeImported && rd_isNew (d st) = false
   /\ w0 = world st /\ pre = [])
  \/ (requireResourcesToBeImported && rd_isNew (d st) = true
      /\ exists existing err,
           fabrics_Get (stringAttr (d st) "resource_group_name")
                       (stringAttr (d st) "vault_name")
                       (stringAttr (d st) "name") (world st)
           = ((existing, err), w0)
           /\ pre = [(ReplicationFabrics_Get
                        (stringAttr (d st) "resource_group_name")
                        (stringAttr (d st) "vault_name")
                        (stringAttr (d st) "name"),
                      ReplyFabric existing err)]
           /\ Forall checkPassed pre).

Definition counterChecked `{helpers : Helpers} `{remote : Remote}
    (st : State) (w0 : World) (pre : list Event) : Prop :=
  (rd_isNew (d st) = false /\ w0 = world st /\ pre = [])
  \/ (rd_isNew (d st) = true
      /\ exists resp err,
           dataSources_Get (stringAttr (d st) "resource_group_name")
                           (stringAttr (d st) "workspace_name")
                           (stringAttr (d st) "name") (world st)
           = ((resp, err), w0)
           /\ pre = [(DataSources_Get
                        (stringAttr (d st) "resource_group_name")
                        (stringAttr (d st) "workspace_name")
                        (stringAttr (d st) "name"),
                      ReplyDataSource resp err)]
           /\ Forall checkPassed pre).

(** ** Further runs on the scripted remote side *)

Module Scenario.

Definition untracked : ResourceData :=
  {| rd_id := "fabric1"; rd_isNew := false; rd_attrs := ∅ |}.

(** Read or Delete of a resource whose identifier is no resource path. *)
Definition malformed : @State Example.scripted :=
  Example.start Example.idle untracked.

(** Create when the existence check fails with a server error. *)
Definition checkFails : @State Example.scripted :=
  Example.start
    (Example.fabricScript [(Example.brokenFabric, Example.serverError)]
       [] [] [] [] [])
    Example.fabricConfig.

Definition brokenCounter : operationalinsights.DataSource :=
  {| operationalinsights.DataSourceResponse := Example.failed;
     operationalinsights.Properties := GNil;
     operationalinsights.Kind := "";
     operationalinsights.ID := None;
     operationalinsights.Name := None |}.

Definition counterCheckFails : @State Example.scripted :=
  Example.start
    (Example.counterScript [(brokenCounter, Example.serverError)] [] [])
    Example.counterConfig.

(** Create of the fabric when the creation request is refused. *)
Definition requestFails : @State Example.scripted :=
  Example.start
    (Example.fabricScript [Example.noFabric] [Example.serverError] [] [] [] [])
    Example.fabricConfig.

(** Create of the fabric when the result comes back without an ID. *)
Definition anonymousFabric : siterecovery.Fabric :=
  {| siterecovery.FabricResponse := Example.ok;
     siterecovery.ID := None;
     siterecovery.Name := Some "fabric1";
     siterecovery.FabricProps := None |}.

Definition resultWithoutId : @State Example.scripted :=
  Example.start
    (Example.fabricScript [Example.noFabric] [None] [None]
       [(anonymousFabric, None)] [] [])
    Example.fabricConfig.

(** Create of the counter when CreateOrUpdate is refused. *)
Definition submitFails : @State Example.scripted :=
  Example.start
    (Example.counterScript [Example.noDataSource] [Example.serverError] [])
    Example.counterConfig.

(** Update of the counter when the Get after CreateOrUpdate finds
    nothing. *)
Definition updateThenMissing : @State Example.scripted :=
  Example.start
    (Example.counterScript [Example.noDataSource] [None] [])
    Example.counterTracked.

(** Read of a fabric whose response has no properties. *)
Definition readAnonymousFabric : @State Example.scripted :=
  Example.start
    (Example.fabricScript [(anonymousFabric, None)] [] [] [] [] [])
    Example.fabricTracked.

(** Read of the counter right after an import. *)
Definition readCounter : @State Example.scripted :=
  Example.start
    (Example.counterScript [(Example.counter1, None)] [] [])
    {| rd_id := Example.counterId; rd_isNew := false; rd_attrs := ∅ |}.

(** Read of a counter whose properties are an empty object. *)
Definition emptyCounter : operationalinsights.DataSource :=
  {| operationalinsights.DataSourceResponse := Example.ok;
     operationalinsights.Properties := GMap ∅;
     operationalinsights.Kind := operationalinsights.WindowsPerformanceCounter;
     operationalinsights.ID := Some Example.counterId;
     operationalinsights.Name := Some "counter1" |}.

Definition readEmptyCounter : @State Example.scripted :=
  Example.start
    (Example.counterScript [(emptyCounter, None)] [] [])
    Example.counterTracked.

(** Two Reads of the fabric in a row. *)
Definition readFabricTwice : @State Example.scripted :=
  Example.start
    (Example.fabricScript [(Example.fabric1, None); (Example.fabric1, None)]
       [] [] [] [] [])
    Example.fabricTracked.

(** A document with a member that no field knows and without an interval. *)
Definition partialDocument : list (string * GoValue) :=
  [ ("counterName", GString "% Processor Time");
    ("collectorType", GString "Default");
    ("objectName", GString "Processor") ].

(** What the two parsers make of the identifiers of fabric1 and counter1. *)
Definition fabric1ResourceID : ResourceID :=
  {| SubscriptionID := "sub1"; ResourceGroup := "rg1";
     Provider := "Microsoft.RecoveryServices";
     Path := {[ "vaults" := "vault1"; "replicationFabrics" := "fabric1" ]} |}.

Definition counter1Id : LogAnalyticsDataSourceId :=
  {| ds_ResourceGroup := "rg1"; ds_Workspace := "ws1";
     ds_Name := "counter1" |}.

End Scenario.

(** * Properties *)

Section MonadFacts.
Context `{remote : Remote}.

Lemma bind_Ok {A B} (m : M A) (k : A -> M B) st a st' :
  m st = (Ok a, st') -> bind m k st = k a st'.
Proof. intros E. unfold bind. now rewrite E. Qed.

Lemma d_GetString_string sch k s st :
  sch !! k = Some s -> Type_ s = TypeString ->
  d_GetString sch k st = (Ok (stringAttr (d st) k), st).
Proof.
  intros Hk Ht. unfold d_GetString, ResourceData_Get, stringAttr.
  rewrite Hk, Ht. destruct (rd_attrs (d st) !! k) as [[]|]; reflexivity.
Qed.

Lemma d_GetInt_int sch k s st :
  sch !! k = Some s -> Type_ s = TypeInt ->
  d_GetInt sch k st = (Ok (intAttr (d st) k), st).
Proof.
  intros Hk Ht. unfold d_GetInt, ResourceData_Get, intAttr.
  rewrite Hk, Ht. destruct (rd_attrs (d st) !! k) as [[]|]; reflexivity.
Qed.

End MonadFacts.

(** Rewriting with the answers of the remote side that a statement fixes. *)
Ltac answers :=
  repeat (match goal with
          | H : ?l = _ |- context [?l] => rewrite H
          end; cbn).

Ltac monad_ops :=
  unfold bind, ret, throw, panic, deref, issue, d_Id, d_IsNewResource,
    d_SetId, d_Set, with_d, update_d.

Section SchemaFacts.
Context `{helpers : Helpers} `{remote : Remote}.

Lemma fabric_name st :
  d_GetString fabricSchema "name" st = (Ok (stringAttr (d st) "name"), st).
Proof. eapply d_GetString_string; reflexivity. Qed.

Lemma fabric_vault_name st :
  d_GetString fabricSchema "vault_name" st
  = (Ok (stringAttr (d st) "vault_name"), st).
Proof. eapply d_GetString_string; reflexivity. Qed.

Lemma fabric_resource_group_name st :
  d_GetString fabricSchema "resource_group_name" st
  = (Ok (stringAttr (d st) "resource_group_name"), st).
Proof.
  eapply d_GetString_string;
    [reflexivity | apply resourceGroupNameSchema_Type].
Qed.

Lemma fabric_location st :
  d_GetString fabricSchema "location" st
  = (Ok (stringAttr (d st) "location"), st).
Proof.
  eapply d_GetString_string; [reflexivity | apply locationSchema_Type].
Qed.

Lemma counter_name st :
  d_GetString counterSchema "name" st = (Ok (stringAttr (d st) "name"), st).
Proof. eapply d_GetString_string; reflexivity. Qed.

Lemma counter_resource_group_name st :
  d_GetString counterSchema "resource_group_name" st
  = (Ok (stringAttr (d st) "resource_group_name"), st).
Proof.
  eapply d_GetString_string;
    [reflexivity | apply SchemaResourceGroupName_Type].
Qed.

Lemma counter_workspace_name st :
  d_GetString counterSchema "workspace_name" st
  = (Ok (stringAttr (d st) "workspace_name"), st).
Proof. eapply d_GetString_string; reflexivity. Qed.

Lemma counter_counter_name st :
  d_GetString counterSchema "counter_name" st
  = (Ok (stringAttr (d st) "counter_name"), st).
Proof. eapply d_GetString_string; reflexivity. Qed.

Lemma counter_instance_name st :
  d_GetString counterSchema "instance_name" st
  = (Ok (stringAttr (d st) "instance_name"), st).
Proof. eapply d_GetString_string; reflexivity. Qed.

Lemma counter_object_name st :
  d_GetString counterSchema "object_name" st
  = (Ok (stringAttr (d st) "object_name"), st).
Proof. eapply d_GetString_string; reflexivity. Qed.

Lemma counter_interval_seconds st :
  d_GetInt counterSchema "interval_seconds" st
  = (Ok (intAttr (d st) "interval_seconds"), st).
Proof. eapply d_GetInt_int; reflexivity. Qed.

End SchemaFacts.

(** The reads of the configuration with which the two Create functions
    begin. *)
Ltac fabric_reads st :=
  unfold resourceArmRecoveryServicesReplicationFabricCreate;
  rewrite (bind_Ok _ _ _ _ _ (fabric_name st));
  rewrite (bind_Ok _ _ _ _ _ (fabric_vault_name st));
  rewrite (bind_Ok _ _ _ _ _ (fabric_resource_group_name st));
  rewrite (bind_Ok _ _ _ _ _ (fabric_location st)).

Ltac counter_reads st :=
  unfold resourceArmLogAnalyticsDataSourceWindowsPerformanceCounterCreateUpdate;
  rewrite (bind_Ok _ _ _ _ _ (counter_name st));
  rewrite (bind_Ok _ _ _ _ _ (counter_resource_group_name st));
  rewrite (bind_Ok _ _ _ _ _ (counter_workspace_name st)).

(** ** Validation of [interval_seconds] *)

(** C5: the validator that the schema attaches to [interval_seconds] is
    [IntBetween 10 MaxInt32]; it accepts an integer exactly when it lies
    between 10 and the largest 32-bit signed integer, and it rejects 5 with
    a range violation.  The validator is a function of the value and the key
    alone: it has no access to the remote side. *)
Theorem interval_seconds_bounds `{helpers : Helpers} :
  ValidateFunc <$> (counterSchema !! "interval_seconds")
  = Some (Some (IntBetween 10 MaxInt32))
  /\ (forall (v : Z) (k : string),
        accepts (IntBetween 10 MaxInt32) (VInt v) k
        <-> (10 <= v /\ v <= 2 ^ 31 - 1)%Z)
  /\ (forall k,
        snd (IntBetween 10 MaxInt32 (VInt 5) k) = [NotInRange k 10 MaxInt32 5]).
Proof.
  split; [reflexivity|]. split.
  - intros v k. unfold accepts, IntBetween, MaxInt32.
    destruct (v <? 10)%Z eqn:E1; destruct (v >? 2147483647)%Z eqn:E2; cbn;
      split; intros H; try discriminate; try reflexivity; lia.
  - reflexivity.
Qed.

(** ** Create on an existing resource *)

(** C1: when the import-safety guard applies and the Get of the existence
    check reports an existing resource, Create returns the ImportAsExists
    error; the Get is the only call it has issued, so no request that
    changes the remote side was sent, and the resource data is as it was. *)
Theorem create_existing_is_refused `{helpers : Helpers} `{remote : Remote}
    (st : State) :
  rd_isNew (d st) = true ->
  (forall existing err id w',
      requireResourcesToBeImported = true ->
      fabrics_Get (stringAttr (d st) "resource_group_name")
                  (stringAttr (d st) "vault_name")
                  (stringAttr (d st) "name") (world st)
      = ((existing, err), w') ->
      reportsExisting (siterecovery.FabricResponse existing)
                      (siterecovery.ID existing) err id ->
      let new :=
        [(ReplicationFabrics_Get (stringAttr (d st) "resource_group_name")
                                 (stringAttr (d st) "vault_name")
                                 (stringAttr (d st) "name"),
          ReplyFabric existing err)] in
      resourceArmRecoveryServicesReplicationFabricCreate st
      = (Err (ImportAsExistsError
                "azurerm_recovery_services_replication_fabric" id),
         {| world := w'; calls := calls st ++ new; d := d st |})
      /\ Forall (fun ev => mutating (fst ev) = false) new)
  /\ (forall resp err id w',
      dataSources_Get (stringAttr (d st) "resource_group_name")
                      (stringAttr (d st) "workspace_name")
                      (stringAttr (d st) "name") (world st)
      = ((resp, err), w') ->
      reportsExisting (operationalinsights.DataSourceResponse resp)
                      (operationalinsights.ID resp) err id ->
      let new :=
        [(DataSources_Get (stringAttr (d st) "resource_group_name")
                          (stringAttr (d st) "workspace_name")
                          (stringAttr (d st) "name"),
          ReplyDataSource resp err)] in
      resourceArmLogAnalyticsDataSourceWindowsPerformanceCounterCreateUpdate st
      = (Err (ImportAsExistsError
                "azurerm_log_analytics_datasource_windows_performance_counter"
                id),
         {| world := w'; calls := calls st ++ new; d := d st |})
      /\ Forall (fun ev => mutating (fst ev) = false) new).
Proof.
  intros Hnew. split.
  - intros existing err id w' Hflag Hget (-> & Hnf & Hid & Hne).
    split; [|repeat constructor].
    fabric_reads st. monad_ops. unfold fabricClient_Get, issue.
    rewrite Hflag, Hnew. cbn. rewrite Hget. cbn. rewrite Hid.
    destruct (String.eqb_spec id ""); [contradiction|]. reflexivity.
  - intros resp err id w' Hget (-> & Hnf & Hid & Hne).
    split; [|repeat constructor].
    counter_reads st. monad_ops. unfold client_Get, issue.
    rewrite Hnew. cbn. rewrite Hget. cbn. rewrite Hnf. cbn. rewrite Hid.
    reflexivity.
Qed.

(** ** Read *)

(** C2: when the Get that Read issues answers not-found, Read clears the
    tracked identifier and returns nil, for both kinds of resource; nothing
    else of the resource data changes. *)
Theorem read_missing_clears_id `{helpers : Helpers} `{remote : Remote}
    (st : State) :
  (forall id resp e w',
      parseAzureResourceID (rd_id (d st)) = Success id ->
      fabrics_Get (ResourceGroup id) (index (Path id) "vaults")
                  (index (Path id) "replicationFabrics") (world st)
      = ((resp, Some e), w') ->
      ResponseWasNotFound (siterecovery.FabricResponse resp) = true ->
      exists st',
        resourceArmRecoveryServicesReplicationFabricRead st = (Ok tt, st')
        /\ rd_id (d st') = ""
        /\ d st' = ResourceData_SetId (d st) "")
  /\ (forall id resp e w',
      LogAnalyticsDataSourceID (rd_id (d st)) = Success id ->
      dataSources_Get (ds_ResourceGroup id) (ds_Workspace id) (ds_Name id)
                      (world st)
      = ((resp, Some e), w') ->
      ResponseWasNotFound (operationalinsights.DataSourceResponse resp) = true ->
      exists st',
        resourceArmLogAnalyticsDataSourceWindowsPerformanceCounterRead st
        = (Ok tt, st')
        /\ rd_id (d st') = ""
        /\ d st' = ResourceData_SetId (d st) "").
Proof.
  split.
  - intros id resp e w' Hparse Hget Hnf.
    unfold resourceArmRecoveryServicesReplicationFabricRead.
    monad_ops. unfold fabricClient_Get, issue. cbn.
    rewrite Hparse. cbn. rewrite Hget. cbn. rewrite Hnf.
    eexists. split; [reflexivity|]. split; reflexivity.
  - intros id resp e w' Hparse Hget Hnf.
    unfold resourceArmLogAnalyticsDataSourceWindowsPerformanceCounterRead.
    monad_ops. unfold client_Get, issue. cbn.
    rewrite Hparse. cbn. rewrite Hget. cbn. rewrite Hnf.
    eexists. split; [reflexivity|]. split; reflexivity.
Qed.

(** C9: a Read of the performance counter whose Get succeeds with no
    properties document writes [name], [resource_group_name] and
    [workspace_name] and nothing else: every other attribute, the four
    counter attributes among them, and the identifier are as they were. *)
Theorem read_without_properties `{helpers : Helpers} `{remote : Remote}
    (st : State) id resp w' :
  LogAnalyticsDataSourceID (rd_id (d st)) = Success id ->
  dataSources_Get (ds_ResourceGroup id) (ds_Workspace id) (ds_Name id)
                  (world st)
  = ((resp, None), w') ->
  operationalinsights.Properties resp = GNil ->
  exists st',
    resourceArmLogAnalyticsDataSourceWindowsPerformanceCounterRead st
    = (Ok tt, st')
    /\ rd_id (d st') = rd_id (d st)
    /\ rd_attrs (d st') !! "name"
       = Some (ofStringPtr (operationalinsights.Name resp))
    /\ rd_attrs (d st') !! "resource_group_name"
       = Some (VString (ds_ResourceGroup id))
    /\ rd_attrs (d st') !! "workspace_name" = Some (VString (ds_Workspace id))
    /\ (forall k,
          k <> "name" -> k <> "resource_group_name" -> k <> "workspace_name" ->
          rd_attrs (d st') !! k = rd_attrs (d st) !! k)
    /\ Forall (fun k => rd_attrs (d st') !! k = rd_attrs (d st) !! k)
         ["counter_name"; "instance_name"; "interval_seconds"; "object_name"].
Proof.
  intros Hparse Hget Hprops.
  unfold resourceArmLogAnalyticsDataSourceWindowsPerformanceCounterRead.
  monad_ops. unfold client_Get, issue. cbn.
  rewrite Hparse. cbn. rewrite Hget. cbn. rewrite Hprops.
  eexists. split; [reflexivity|]. cbn.
  assert (Hframe : forall k,
    k <> "name" -> k <> "resource_group_name" -> k <> "workspace_name" ->
    (<["workspace_name" := VString (ds_Workspace id)]>
      (<["resource_group_name" := VString (ds_ResourceGroup id)]>
        (<["name" := ofStringPtr (operationalinsights.Name resp)]>
          (rd_attrs (d st))))) !! k = rd_attrs (d st) !! k).
  { intros k H1 H2 H3. by rewrite !lookup_insert_ne. }
  repeat split.
  - by rewrite lookup_insert_ne, lookup_insert_ne, lookup_insert_eq.
  - by rewrite lookup_insert_ne, lookup_insert_eq.
  - by rewrite lookup_insert_eq.
  - exact Hframe.
  - repeat constructor; by apply Hframe.
Qed.

(** ** What Read does to the identifier and to the log *)

#[local] Arguments d_GetString : simpl never.
#[local] Arguments d_GetInt : simpl never.

Ltac counter_props_in H :=
  lazymatch type of H with
  | context [d_GetString counterSchema "counter_name" _] =>
      rewrite counter_counter_name in H
  | context [d_GetString counterSchema "instance_name" _] =>
      rewrite counter_instance_name in H
  | context [d_GetInt counterSchema "interval_seconds" _] =>
      rewrite counter_interval_seconds in H
  | context [d_GetString counterSchema "object_name" _] =>
      rewrite counter_object_name in H
  end.

(** Case analysis on every answer and every test a run depends on. *)
Ltac branch_on_hyp H :=
  repeat (first
            [ counter_props_in H
            | match type of H with
              | context [match ?x with _ => _ end] =>
                  lazymatch x with
                  | context [match _ with _ => _ end] => fail
                  | _ => destruct x eqn:?
                  end
              end ]; cbn in H).

Ltac close_run H :=
  injection H as <- <-; cbn.

Ltac tidy :=
  repeat match goal with
         | H : negb _ = false |- _ => apply negb_false_iff in H
         | H : negb _ = true |- _ => apply negb_true_iff in H
         | H : String.eqb _ _ = true |- _ => apply String.eqb_eq in H; subst
         | H : String.eqb _ _ = false |- _ => apply String.eqb_neq in H
         end.

Section ReadFacts.
Context `{helpers : Helpers} `{remote : Remote}.

(** Read issues at most one call, a Get, and exactly one when it returns
    nil; it leaves the identifier alone or clears it. *)
Lemma fabricRead_effect (st : State) out st' :
  resourceArmRecoveryServicesReplicationFabricRead st = (out, st') ->
  (rd_id (d st') = rd_id (d st) \/ rd_id (d st') = "")
  /\ exists post,
       calls st' = calls st ++ post
       /\ (kinds post = [KGet] \/ kinds post = [] /\ out <> Ok tt).
Proof.
  unfold resourceArmRecoveryServicesReplicationFabricRead.
  monad_ops. unfold fabricClient_Get, issue. cbn. intros H.
  branch_on_hyp H; close_run H;
    (split; [auto|]);
    first [ exists []; split; [symmetry; apply app_nil_r|];
            right; split; [reflexivity|discriminate]
          | eexists; split; [reflexivity|]; left; reflexivity ].
Qed.

Lemma counterRead_effect (st : State) out st' :
  resourceArmLogAnalyticsDataSourceWindowsPerformanceCounterRead st
  = (out, st') ->
  (rd_id (d st') = rd_id (d st) \/ rd_id (d st') = "")
  /\ exists post,
       calls st' = calls st ++ post
       /\ (kinds post = [KGet] \/ kinds post = [] /\ out <> Ok tt).
Proof.
  unfold resourceArmLogAnalyticsDataSourceWindowsPerformanceCounterRead.
  monad_ops. unfold client_Get, assertMap, issue, ret, panic. cbn. intros H.
  branch_on_hyp H; close_run H;
    (split; [auto|]);
    first [ exists []; split; [symmetry; apply app_nil_r|];
            right; split; [reflexivity|discriminate]
          | eexists; split; [reflexivity|]; left; reflexivity ].
Qed.

End ReadFacts.

(** ** Delete *)

(** C3, as the code has it.  For the fabric, Delete returns nil exactly when
    the delete request and the wait succeed and the result of the operation
    either succeeds or is a not-found response; every other failure of the
    remote side is returned as an error, a not-found reported by the request
    or by the wait included.  Delete leaves the resource data alone, so a
    second Delete on the same identifier whose result is not-found returns
    nil as well.  For the performance counter, Delete returns nil exactly
    when the Delete call of the client returns no error: a not-found error
    is returned like any other. *)
Theorem delete_outcomes `{helpers : Helpers} `{remote : Remote} (st : State) :
  (forall id future e1 w1 e2 w2 resp e3 w3,
      parseAzureResourceID (rd_id (d st)) = Success id ->
      fabrics_Delete (ResourceGroup id) (index (Path id) "vaults")
                     (index (Path id) "replicationFabrics") (world st)
      = ((future, e1), w1) ->
      deleteFuture_WaitForCompletionRef future w1 = (e2, w2) ->
      deleteFuture_Result future w2 = ((resp, e3), w3) ->
      exists out st',
        resourceArmRecoveryServicesReplicationFabricDelete st = (out, st')
        /\ d st' = d st
        /\ (out = Ok tt
            <-> e1 = None /\ e2 = None
                /\ (e3 = None \/ ResponseWasNotFound resp = true))
        /\ (out = Ok tt \/ exists e, out = Err e))
  /\ (forall st1 id future w1 w2 resp e w3,
      resourceArmRecoveryServicesReplicationFabricDelete st = (Ok tt, st1) ->
      parseAzureResourceID (rd_id (d st)) = Success id ->
      fabrics_Delete (ResourceGroup id) (index (Path id) "vaults")
                     (index (Path id) "replicationFabrics") (world st1)
      = ((future, None), w1) ->
      deleteFuture_WaitForCompletionRef future w1 = (None, w2) ->
      deleteFuture_Result future w2 = ((resp, Some e), w3) ->
      ResponseWasNotFound resp = true ->
      exists st2,
        resourceArmRecoveryServicesReplicationFabricDelete st1 = (Ok tt, st2))
  /\ (forall id resp e w1,
      LogAnalyticsDataSourceID (rd_id (d st)) = Success id ->
      dataSources_Delete (ds_ResourceGroup id) (ds_Workspace id) (ds_Name id)
                         (world st)
      = ((resp, e), w1) ->
      exists out st',
        resourceArmLogAnalyticsDataSourceWindowsPerformanceCounterDelete st
        = (out, st')
        /\ d st' = d st
        /\ (out = Ok tt <-> e = None)
        /\ (out = Ok tt \/ exists e', out = Err e')).
Proof.
  assert (Hfabric : forall (s : State) id future e1 w1 e2 w2 resp e3 w3,
      parseAzureResourceID (rd_id (d s)) = Success id ->
      fabrics_Delete (ResourceGroup id) (index (Path id) "vaults")
                     (index (Path id) "replicationFabrics") (world s)
      = ((future, e1), w1) ->
      deleteFuture_WaitForCompletionRef future w1 = (e2, w2) ->
      deleteFuture_Result future w2 = ((resp, e3), w3) ->
      exists out st',
        resourceArmRecoveryServicesReplicationFabricDelete s = (out, st')
        /\ d st' = d s
        /\ (out = Ok tt
            <-> e1 = None /\ e2 = None
                /\ (e3 = None \/ ResponseWasNotFound resp = true))
        /\ (out = Ok tt \/ exists e, out = Err e)).
  { intros s id future e1 w1 e2 w2 resp e3 w3 Hparse Hdel Hwait Hres.
    unfold resourceArmRecoveryServicesReplicationFabricDelete.
    monad_ops.
    unfold fabricClient_Delete, deleteFuture_Wait, deleteFuture_Res, issue.
    cbn. rewrite Hparse. cbn. rewrite Hdel. cbn.
    destruct e1 as [e1|]; cbn.
    { do 2 eexists. split; [reflexivity|]. split; [reflexivity|].
      split; [|eauto]. split; [discriminate|]. intros (? & _); discriminate. }
    rewrite Hwait. cbn. destruct e2 as [e2|]; cbn.
    { do 2 eexists. split; [reflexivity|]. split; [reflexivity|].
      split; [|eauto]. split; [discriminate|].
      intros (_ & ? & _); discriminate. }
    rewrite Hres. cbn. destruct e3 as [e3|]; cbn.
    - destruct (ResponseWasNotFound resp) eqn:Hnf; cbn.
      + do 2 eexists. split; [reflexivity|]. split; [reflexivity|].
        split; [|auto]. split; auto.
      + do 2 eexists. split; [reflexivity|]. split; [reflexivity|].
        split; [|eauto]. split; [discriminate|].
        intros (_ & _ & [?|?]); discriminate.
    - do 2 eexists. split; [reflexivity|]. split; [reflexivity|].
      split; [|auto]. split; auto. }
  split; [exact (Hfabric st)|]. split.
  - intros st1 id future w1 w2 resp e w3 Hfirst Hparse Hdel Hwait Hres Hnf.
    assert (Hd : d st1 = d st).
    { destruct (fabrics_Delete (ResourceGroup id) (index (Path id) "vaults")
                  (index (Path id) "replicationFabrics") (world st))
        as [[f1 a1] v1] eqn:E1.
      destruct (deleteFuture_WaitForCompletionRef f1 v1) as [a2 v2] eqn:E2.
      destruct (deleteFuture_Result f1 v2) as [[r3 a3] v3] eqn:E3.
      destruct (Hfabric st _ _ _ _ _ _ _ _ _ Hparse E1 E2 E3)
        as (out & st' & Hrun & Hsame & _).
      rewrite Hfirst in Hrun. injection Hrun as _ <-. exact Hsame. }
    rewrite <- Hd in Hparse.
    destruct (Hfabric st1 _ _ _ _ _ _ _ _ _ Hparse Hdel Hwait Hres)
      as (out & st2 & Hrun & _ & Hok & _).
    exists st2. rewrite Hrun. f_equal. apply Hok. auto.
  - intros id resp e w1 Hparse Hdel.
    unfold resourceArmLogAnalyticsDataSourceWindowsPerformanceCounterDelete.
    monad_ops. unfold client_Delete, issue. cbn.
    rewrite Hparse. cbn. rewrite Hdel. cbn.
    destruct e as [e|]; cbn.
    + do 2 eexists. split; [reflexivity|]. split; [reflexivity|].
      split; [|eauto]. split; discriminate.
    + do 2 eexists. split; [reflexivity|]. split; [reflexivity|].
      split; [|auto]. split; auto.
Qed.

(** ** Create and the tracked identifier *)

Ltac counter_props st :=
  rewrite (bind_Ok _ _ _ _ _ (counter_counter_name st));
  rewrite (bind_Ok _ _ _ _ _ (counter_instance_name st));
  rewrite (bind_Ok _ _ _ _ _ (counter_interval_seconds st));
  rewrite (bind_Ok _ _ _ _ _ (counter_object_name st)).

(** C4, as the code has it.  When Create changes the tracked identifier, the
    existence check (where the guard applies) found nothing, and the
    creation request, the wait (fabric) and the fetch of the result all
    succeeded; the identifier was then set to the ID of the fetched
    resource, and what Create returns is what the Read that follows returns
    from there.  So a failure of one of those steps leaves the identifier as
    it was. *)
Theorem create_sets_id_after_success `{helpers : Helpers} `{remote : Remote}
    (st : State) :
  (forall out st',
      resourceArmRecoveryServicesReplicationFabricCreate st = (out, st') ->
      rd_id (d st') <> rd_id (d st) ->
      exists pre res id w,
        length pre
        = (if requireResourcesToBeImported && rd_isNew (d st) then 1 else 0)%nat
        /\ Forall checkPassed pre
        /\ siterecovery.ID res = Some id
        /\ resourceArmRecoveryServicesReplicationFabricRead
             {| world := w;
                calls := calls st ++ pre ++
                  [ (ReplicationFabrics_Create
                       (stringAttr (d st) "resource_group_name")
                       (stringAttr (d st) "vault_name")
                       (stringAttr (d st) "name")
                       (azureFabric (stringAttr (d st) "location")),
                     ReplyFuture None);
                    (CreateFuture_WaitForCompletionRef, ReplyWait None);
                    (CreateFuture_Result, ReplyFabric res None) ];
                d := ResourceData_SetId (d st) id |}
           = (out, st'))
  /\ (forall out st',
      resourceArmLogAnalyticsDataSourceWindowsPerformanceCounterCreateUpdate st
      = (out, st') ->
      rd_id (d st') <> rd_id (d st) ->
      exists pre sent resp id w,
        length pre = (if rd_isNew (d st) then 1 else 0)%nat
        /\ Forall checkPassed pre
        /\ operationalinsights.ID resp = Some id /\ id <> ""
        /\ resourceArmLogAnalyticsDataSourceWindowsPerformanceCounterRead
             {| world := w;
                calls := calls st ++ pre ++
                  [ (DataSources_CreateOrUpdate
                       (stringAttr (d st) "resource_group_name")
                       (stringAttr (d st) "workspace_name")
                       (stringAttr (d st) "name")
                       (counterParams (d st)),
                     ReplyDataSource sent None);
                    (DataSources_Get
                       (stringAttr (d st) "resource_group_name")
                       (stringAttr (d st) "workspace_name")
                       (stringAttr (d st) "name"),
                     ReplyDataSource resp None) ];
                d := ResourceData_SetId (d st) id |}
           = (out, st')).
Proof.
  split.
  - intros out st'. fabric_reads st.
    remember resourceArmRecoveryServicesReplicationFabricRead as read.
    monad_ops.
    unfold fabricClient_Get, fabricClient_Create, createFuture_Wait,
      createFuture_Res, issue.
    cbn. intros H Hne.
    destruct (requireResourcesToBeImported && rd_isNew (d st)) eqn:G; cbn in H.
    + branch_on_hyp H.
      all: try (close_run H; cbn in Hne; congruence).
      all: rewrite <- !app_assoc in H.
      all: eexists [_], _, _, _.
      all: (split; [reflexivity|]).
      all: (split; [|split; [eassumption|exact H]]).
      all: tidy; (constructor; [cbn; split; auto|constructor]).
    + branch_on_hyp H.
      all: try (close_run H; cbn in Hne; congruence).
      all: rewrite <- !app_assoc in H.
      all: exists [].
      all: eexists _, _, _.
      all: (split; [reflexivity|]).
      all: (split; [constructor|split; [eassumption|exact H]]).
  - intros out st'. counter_reads st.
    remember resourceArmLogAnalyticsDataSourceWindowsPerformanceCounterRead
      as read.
    monad_ops. unfold client_Get, client_CreateOrUpdate, issue.
    cbn. intros H Hne.
    destruct (rd_isNew (d st)) eqn:G; cbn in H.
    + branch_on_hyp H.
      all: try (close_run H; cbn in Hne; congruence).
      all: rewrite <- !app_assoc in H.
      all: eexists [_], _, _, _, _.
      all: (split; [reflexivity|]).
      all: (split; [|split; [eassumption|split; [|exact H]]]).
      all: tidy; try (constructor; [cbn; auto|constructor]); auto.
    + branch_on_hyp H.
      all: try (close_run H; cbn in Hne; congruence).
      all: rewrite <- !app_assoc in H.
      all: exists [].
      all: eexists _, _, _, _.
      all: (split; [reflexivity|]).
      all: (split; [constructor|split; [eassumption|split; [|exact H]]]).
      all: tidy; auto.
Qed.

(** ** The order of the calls of Create *)

Ltac log_extension :=
  rewrite <- ?app_assoc;
  first [ eexists; split; [reflexivity|]
        | exists []; split; [symmetry; apply app_nil_r|] ].

Ltac order_leaf :=
  cbn; split;
  [ eexists; reflexivity
  | intros; first [discriminate | reflexivity] ].

Lemma kinds_app (l k : list Event) : kinds (l ++ k) = kinds l ++ kinds k.
Proof. apply map_app. Qed.

Ltac after_read lemma H :=
  apply lemma in H; cbn in H;
  destruct H as (_ & post & -> & [Hpost | (Hpost & Hout)]);
  rewrite <- ?app_assoc;
  (eexists; split; [reflexivity|]);
  rewrite ?kinds_app, Hpost; cbn;
  (split; [eexists; reflexivity | intros; first [reflexivity | contradiction]]).

(** C7, as the code has it.  The calls of a Create are an initial segment of
    existence check, submission, wait, fetch of the result and the Get of
    the closing Read, in this order, and all of them when Create returns
    nil.  The existence check is there only when the guard applies: for the
    fabric when [requireResourcesToBeImported] is set and the resource is
    new, for the performance counter when the resource is new.  The
    performance counter has no wait: its submission is followed by the Get
    that fetches the result. *)
Theorem create_call_order `{helpers : Helpers} `{remote : Remote}
    (st : State) :
  (forall out st',
      resourceArmRecoveryServicesReplicationFabricCreate st = (out, st') ->
      exists new,
        calls st' = calls st ++ new
        /\ let expected :=
             (if requireResourcesToBeImported && rd_isNew (d st)
              then [KGet] else [])
             ++ [KSubmit; KWait; KResult; KGet] in
           kinds new `prefix_of` expected
           /\ (out = Ok tt -> kinds new = expected))
  /\ (forall out st',
      resourceArmLogAnalyticsDataSourceWindowsPerformanceCounterCreateUpdate st
      = (out, st') ->
      exists new,
        calls st' = calls st ++ new
        /\ let expected :=
             (if rd_isNew (d st) then [KGet] else [])
             ++ [KSubmit; KGet; KGet] in
           kinds new `prefix_of` expected
           /\ (out = Ok tt -> kinds new = expected)).
Proof.
  split.
  - intros out st'. fabric_reads st.
    remember resourceArmRecoveryServicesReplicationFabricRead as read.
    monad_ops.
    unfold fabricClient_Get, fabricClient_Create, createFuture_Wait,
      createFuture_Res, issue.
    cbn. intros H.
    destruct (requireResourcesToBeImported && rd_isNew (d st)) eqn:G;
      cbn in H; branch_on_hyp H.
    all: try (close_run H; log_extension; order_leaf).
    all: subst read; after_read fabricRead_effect H.
  - intros out st'. counter_reads st.
    remember resourceArmLogAnalyticsDataSourceWindowsPerformanceCounterRead
      as read.
    monad_ops. unfold client_Get, client_CreateOrUpdate, issue.
    cbn. intros H.
    destruct (rd_isNew (d st)) eqn:G; cbn in H; branch_on_hyp H.
    all: try (close_run H; log_extension; order_leaf).
    all: subst read; after_read counterRead_effect H.
Qed.

(** ** The fabric is create-only *)

Lemma only_gets (post : list Event) c r :
  kinds post = [KGet] \/ kinds post = [] ->
  (c, r) ∈ post -> kind c = KGet.
Proof.
  intros Hk Hin.
  assert (Hc : kind c ∈ kinds post).
  { unfold kinds. apply list_elem_of_fmap. exists (c, r). split; [reflexivity|exact Hin]. }
  destruct Hk as [Hk|Hk]; rewrite Hk in Hc.
  - apply list_elem_of_singleton in Hc. exact Hc.
  - inversion Hc.
Qed.

Ltac submit_leaf :=
  let c := fresh "c" in
  let r := fresh "r" in
  let Hin := fresh "Hin" in
  let Hk := fresh "Hk" in
  intros c r Hin Hk;
  rewrite ?elem_of_app, ?elem_of_cons, ?list_elem_of_singleton in Hin;
  repeat match goal with
         | H : _ \/ _ |- _ => destruct H
         | H : _ ∈ [] |- _ => inversion H
         | H : (_, _) = (_, _) |- _ => injection H as -> ->
         end;
  try discriminate;
  try (do 4 eexists; split; [reflexivity|split; reflexivity]).

(** C10: the fabric resource has no Update; [name] and [vault_name] are
    create-only, and so is every attribute of the schema as soon as the two
    shared schemas, of [location] and of [resource_group_name], are.  Every
    creation request that Create submits carries Azure custom details, of
    instance type Azure, at the configured location; and Read changes
    [location] only when the custom details of the response are the Azure
    ones with a location, to that location normalized. *)
Theorem fabric_is_create_only `{helpers : Helpers} `{remote : Remote} :
  Update resourceArmRecoveryServicesReplicationFabric = None
  /\ (exists n v,
        fabricSchema !! "name" = Some n /\ ForceNew n = true
        /\ fabricSchema !! "vault_name" = Some v /\ ForceNew v = true)
  /\ (ForceNew locationSchema = true ->
      ForceNew resourceGroupNameSchema = true ->
      forall k s,
        Schema_ resourceArmRecoveryServicesReplicationFabric !! k = Some s ->
        ForceNew s = true)
  /\ (forall (st : State) out st',
        resourceArmRecoveryServicesReplicationFabricCreate st = (out, st') ->
        exists new,
          calls st' = calls st ++ new
          /\ forall c r,
               (c, r) ∈ new -> kind c = KSubmit ->
               exists resourceGroup vault name a,
                 c = ReplicationFabrics_Create resourceGroup vault name
                       {| siterecovery.Properties :=
                            Some {| siterecovery.CustomDetails :=
                                      siterecovery.AzureInput a |} |}
                 /\ siterecovery.InstanceType_ a
                    = siterecovery.InstanceTypeAzure
                 /\ siterecovery.Location a
                    = Some (stringAttr (d st) "location"))
  /\ (forall (st : State) out st',
        resourceArmRecoveryServicesReplicationFabricRead st = (out, st') ->
        rd_attrs (d st') !! "location" <> rd_attrs (d st) !! "location" ->
        exists resourceGroup vault name resp props a location,
          calls st'
          = calls st ++ [(ReplicationFabrics_Get resourceGroup vault name,
                          ReplyFabric resp None)]
          /\ siterecovery.FabricProps resp = Some props
          /\ siterecovery.FabricCustomDetails props
             = Some (siterecovery.AzureDetails a)
          /\ siterecovery.DetailsLocation a = Some location
          /\ rd_attrs (d st') !! "location"
             = Some (VString (azureRMNormalizeLocation location))).
Proof.
  split; [reflexivity|]. split.
  { do 2 eexists. repeat split. }
  split.
  { intros Hloc Hrg k s. cbn. unfold fabricSchema.
    rewrite !lookup_insert, lookup_singleton.
    repeat case_decide; intros [= <-]; auto. }
  split.
  - intros st out st'. fabric_reads st.
    remember resourceArmRecoveryServicesReplicationFabricRead as read.
    monad_ops.
    unfold fabricClient_Get, fabricClient_Create, createFuture_Wait,
      createFuture_Res, issue.
    cbn. intros H.
    destruct (requireResourcesToBeImported && rd_isNew (d st));
      cbn in H; branch_on_hyp H.
    all: try (close_run H; log_extension; submit_leaf).
    all: subst read; apply fabricRead_effect in H; cbn in H.
    all: destruct H as (_ & post & -> & Hpost).
    all: rewrite <- ?app_assoc; (eexists; split; [reflexivity|]).
    all: assert (Hget : forall c' r', (c', r') ∈ post -> kind c' = KGet)
           by (intros ? ?; apply only_gets; tauto).
    all: submit_leaf.
    all: match goal with
         | Hg : forall _ _, _ -> kind _ = KGet,
           Hin : (_, _) ∈ _, Hk : kind _ = KSubmit |- _ =>
             apply Hg in Hin; rewrite Hin in Hk; discriminate
         end.
  - intros st out st'.
    unfold resourceArmRecoveryServicesReplicationFabricRead.
    monad_ops. unfold fabricClient_Get, issue. cbn. intros H Hne.
    branch_on_hyp H; close_run H; cbn in Hne.
    all: try congruence.
    all: try (rewrite ?lookup_insert_ne in Hne by discriminate; congruence).
    all: unfold siterecovery.AsAzureFabricSpecificDetails in *.
    all: repeat match goal with
                | H : match ?x with _ => _ end = _ |- _ =>
                    destruct x; try discriminate
                | H : (_, _) = (_, _) |- _ => injection H as <- <-
                end.
    all: try discriminate.
    all: do 7 eexists; split; [reflexivity|].
    all: repeat (split; [eassumption || reflexivity|]).
    all: simplify_eq; split; [eassumption|apply lookup_insert_eq].
Qed.

(** ** The property document *)

Lemma float64_of_Z_exact (z : Z) :
  (Z.abs z <= 2 ^ 53)%Z -> float64_of_Z z = z.
Proof.
  intros Hz. unfold float64_of_Z.
  destruct (Z.abs z <? 2 ^ 53)%Z eqn:E; [reflexivity|].
  apply Z.ltb_ge in E.
  assert (Ha : Z.abs z = (2 ^ 53)%Z) by lia.
  rewrite Ha.
  assert (Hs : (z = 2 ^ 53 \/ z = - 2 ^ 53)%Z) by lia.
  destruct Hs as [-> | ->]; reflexivity.
Qed.

Lemma round_trip_of_exact `{helpers : Helpers}
    (p : dataSourceWindowsPerformanceCounterProperty) :
  (Z.abs (IntervalSeconds p) <= 2 ^ 53)%Z -> roundTrips p.
Proof.
  destruct p as [c i n o]. cbn. intros Hn.
  unfold roundTrips, Marshal. cbn.
  rewrite (float64_of_Z_exact n Hn).
  eexists. eexists. split; [reflexivity|].
  split; [vm_compute; reflexivity|].
  cbn. unfold unmarshalMember, findField. cbn.
  assert (Hr : ((- 2 ^ 63 <=? n) && (n <? 2 ^ 63))%Z = true).
  { apply andb_true_iff. split; [apply Z.leb_le|apply Z.ltb_lt]; lia. }
  rewrite Hr. reflexivity.
Qed.

(** C6: a property record whose interval a [float64] holds exactly, that
    is, of absolute value at most 2^53, round-trips; so does every record
    whose interval the validator of [interval_seconds] accepts, and in
    particular the record with interval 60, counter "% Processor Time",
    instance "_Total" and object "Processor". *)
Theorem property_round_trip `{helpers : Helpers} :
  (forall p,
      (Z.abs (IntervalSeconds p) <= 2 ^ 53)%Z -> roundTrips p)
  /\ (forall p k,
      accepts (IntBetween 10 MaxInt32) (VInt (IntervalSeconds p)) k ->
      roundTrips p)
  /\ roundTrips {| CounterName := "% Processor Time"; InstanceName := "_Total";
                   IntervalSeconds := 60; ObjectName := "Processor" |}.
Proof.
  split; [exact round_trip_of_exact|]. split.
  - intros p k Hacc. apply round_trip_of_exact.
    unfold accepts, IntBetween, MaxInt32 in Hacc.
    destruct (IntervalSeconds p <? 10)%Z eqn:E1;
      destruct (IntervalSeconds p >? 2147483647)%Z eqn:E2;
      try discriminate.
    apply Z.ltb_ge in E1. rewrite Z.gtb_ltb in E2. apply Z.ltb_ge in E2.
    change (2 ^ 53)%Z with 9007199254740992%Z. lia.
  - apply round_trip_of_exact. cbn. lia.
Qed.

(** ** The identifier codec *)

Module IdCodecFacts.
Import IdCodec.

Lemma isSlash_eq c : isSlash c = true -> c = "/"%char.
Proof. unfold isSlash. apply Ascii.eqb_eq. Qed.

Lemma split_not_nil s : split s <> [].
Proof.
  destruct s as [|c r]; cbn; [discriminate|].
  destruct (isSlash c); [discriminate|].
  destruct (split r); discriminate.
Qed.

Lemma join_cons x y t : join (x :: y :: t) = (x ++ String "/" (join (y :: t)))%string.
Proof. reflexivity. Qed.

Lemma join_split s : join (split s) = s.
Proof.
  induction s as [|c r IH]; [reflexivity|].
  cbn [split]. destruct (isSlash c) eqn:E.
  - apply isSlash_eq in E. subst c.
    destruct (split r) as [|h t] eqn:Er; [now apply split_not_nil in Er|].
    rewrite join_cons, IH. reflexivity.
  - destruct (split r) as [|h t] eqn:Er; [now apply split_not_nil in Er|].
    destruct t as [|y t].
    + cbn in *. now rewrite IH.
    + rewrite <- IH. reflexivity.
Qed.

Lemma split_slashFree s : slashFree s = true -> split s = [s].
Proof.
  induction s as [|c r IH]; [reflexivity|].
  cbn [split slashFree]. intros H. apply andb_true_iff in H as [Hc Hr].
  apply negb_true_iff in Hc. rewrite Hc, (IH Hr). reflexivity.
Qed.

Lemma split_app_slash x r :
  slashFree x = true -> split (x ++ String "/" r) = x :: split r.
Proof.
  induction x as [|c x IH]; [reflexivity|].
  cbn [slashFree]. intros H.
  apply andb_true_iff in H as [Hc Hx].
  apply negb_true_iff in Hc.
  change (split (String c (x ++ String "/" r)) = String c x :: split r).
  cbn [split]. rewrite Hc, (IH Hx). reflexivity.
Qed.

Lemma split_join l :
  l <> [] -> Forall (fun s => slashFree s = true) l -> split (join l) = l.
Proof.
  induction l as [|x [|y t] IH]; intros Hne Hall.
  - contradiction.
  - apply split_slashFree. now inversion Hall.
  - rewrite join_cons. inversion Hall as [|? ? Hx Ht]; subst.
    rewrite (split_app_slash _ _ Hx). f_equal. apply IH; [discriminate|exact Ht].
Qed.

(** Every segment that [split] returns is free of slashes. *)
Lemma split_segments s : Forall (fun x => slashFree x = true) (split s).
Proof.
  induction s as [|c r IH]; [repeat constructor|].
  cbn [split]. destruct (isSlash c) eqn:E.
  - constructor; [reflexivity|exact IH].
  - destruct (split r) as [|h t]; [repeat constructor; cbn; now rewrite E|].
    inversion IH; subst. constructor; [cbn; rewrite E; cbn; assumption|assumption].
Qed.

End IdCodecFacts.

(** C8: the identifier codec round-trips.  Formatting a valid identifier and
    parsing the result gives the identifier back, under any layout whose
    segment names are free of slashes; and every string that [parse] accepts
    is reproduced exactly by formatting what it was parsed into, which is a
    valid identifier. *)
Theorem identifier_round_trip (L : IdCodec.Layout) :
  (forall x,
      IdCodec.wellFormed L -> IdCodec.valid x ->
      IdCodec.parse L (IdCodec.format L x) = Success x)
  /\ (forall s x,
      IdCodec.parse L s = Success x ->
      IdCodec.format L x = s /\ IdCodec.valid x).
Proof.
  split.
  - intros [sub rg parent name] HL Hx.
    unfold IdCodec.valid in Hx. cbn in Hx.
    apply Forall_cons in Hx as [[Hs1 Hs2] Hx].
    apply Forall_cons in Hx as [[Hr1 Hr2] Hx].
    apply Forall_cons in Hx as [[Hp1 Hp2] Hx].
    apply Forall_cons in Hx as [[Hn1 Hn2] _].
    unfold IdCodec.wellFormed in HL.
    apply Forall_cons in HL as [K1 HL].
    apply Forall_cons in HL as [K2 HL].
    apply Forall_cons in HL as [K3 HL].
    apply Forall_cons in HL as [K4 HL].
    apply Forall_cons in HL as [K5 HL].
    apply Forall_cons in HL as [K6 _].
    unfold IdCodec.parse, IdCodec.format.
    rewrite IdCodecFacts.split_join;
      [|discriminate|repeat constructor; assumption].
    cbn [IdCodec.subscriptionId IdCodec.resourceGroup IdCodec.parentPath
         IdCodec.resourceName].
    rewrite !String.eqb_refl, Hs1, Hr1, Hp1, Hn1. reflexivity.
  - intros s x. unfold IdCodec.parse.
    pose proof (IdCodecFacts.join_split s) as Hjoin.
    pose proof (IdCodecFacts.split_segments s) as Hseg.
    destruct (IdCodec.split s)
      as [|lead [|k1 [|sub [|k2 [|rg [|k3 [|ns [|k4 [|parent [|k5 [|name [|]]]]]]]]]]]];
      try discriminate.
    destruct (_ && _) eqn:E; [|discriminate].
    intros [= <-].
    repeat (apply andb_true_iff in E as [E ?]).
    repeat match goal with
           | H : String.eqb _ _ = true |- _ => apply String.eqb_eq in H
           end.
    rewrite <- Hjoin. clear Hjoin. subst. split.
    + reflexivity.
    + unfold IdCodec.valid. cbn.
      repeat match goal with
             | H : Forall _ (_ :: _) |- _ => apply Forall_cons in H as [? H]
             end.
      repeat constructor; assumption.
Qed.

(** ** The statements at concrete inputs *)

Lemma interval_seconds_bounds_witness :
  accepts (IntBetween 10 MaxInt32) (VInt 60) "interval_seconds"
  /\ ~ accepts (IntBetween 10 MaxInt32) (VInt 5) "interval_seconds".
Proof.
  destruct (@interval_seconds_bounds Example.strict) as (_ & Hrange & _).
  split.
  - apply Hrange. lia.
  - intros H. apply Hrange in H. lia.
Defined.

Lemma create_existing_is_refused_witness :
  fst (@resourceArmRecoveryServicesReplicationFabricCreate
         Example.strict Example.scripted Example.createExistingFabric)
  = Err (ImportAsExistsError "azurerm_recovery_services_replication_fabric"
           Example.fabricId)
  /\ fst (@resourceArmLogAnalyticsDataSourceWindowsPerformanceCounterCreateUpdate
            Example.strict Example.scripted Example.createExistingCounter)
     = Err (ImportAsExistsError
              "azurerm_log_analytics_datasource_windows_performance_counter"
              Example.counterId).
Proof.
  split.
  - destruct (@create_existing_is_refused Example.strict Example.scripted
                Example.createExistingFabric eq_refl) as [Hf _].
    edestruct (Hf Example.fabric1 None Example.fabricId) as [Hrun _];
      [ reflexivity | vm_compute; reflexivity
      | repeat split; first [reflexivity | discriminate] | ].
    rewrite Hrun. reflexivity.
  - destruct (@create_existing_is_refused Example.strict Example.scripted
                Example.createExistingCounter eq_refl) as [_ Hc].
    edestruct (Hc Example.counter1 None Example.counterId) as [Hrun _];
      [ vm_compute; reflexivity
      | repeat split; first [reflexivity | discriminate] | ].
    rewrite Hrun. reflexivity.
Defined.

Lemma read_missing_clears_id_witness :
  (fst (@resourceArmRecoveryServicesReplicationFabricRead
          Example.strict Example.scripted Example.readMissingFabric) = Ok tt
   /\ rd_id (d (snd (@resourceArmRecoveryServicesReplicationFabricRead
          Example.strict Example.scripted Example.readMissingFabric))) = "")
  /\ (fst (@resourceArmLogAnalyticsDataSourceWindowsPerformanceCounterRead
          Example.strict Example.scripted Example.readMissingCounter) = Ok tt
      /\ rd_id (d (snd (@resourceArmLogAnalyticsDataSourceWindowsPerformanceCounterRead
          Example.strict Example.scripted Example.readMissingCounter))) = "").
Proof.
  split.
  - destruct (@read_missing_clears_id Example.strict Example.scripted
                Example.readMissingFabric) as [Hf _].
    edestruct Hf as (st' & Hrun & Hid & _);
      [ vm_compute; reflexivity | vm_compute; reflexivity | reflexivity | ].
    rewrite Hrun. split; [reflexivity | exact Hid].
  - destruct (@read_missing_clears_id Example.strict Example.scripted
                Example.readMissingCounter) as [_ Hc].
    edestruct Hc as (st' & Hrun & Hid & _);
      [ vm_compute; reflexivity | vm_compute; reflexivity | reflexivity | ].
    rewrite Hrun. split; [reflexivity | exact Hid].
Defined.

Lemma read_without_properties_witness :
  fst (@resourceArmLogAnalyticsDataSourceWindowsPerformanceCounterRead
         Example.strict Example.scripted Example.readBareCounter) = Ok tt
  /\ Forall
       (fun k =>
          rd_attrs (d (snd (@resourceArmLogAnalyticsDataSourceWindowsPerformanceCounterRead
            Example.strict Example.scripted Example.readBareCounter))) !! k
          = rd_attrs Example.counterTracked !! k)
       ["counter_name"; "instance_name"; "interval_seconds"; "object_name"].
Proof.
  edestruct (@read_without_properties Example.strict Example.scripted
               Example.readBareCounter)
    as (st' & Hrun & _ & _ & _ & _ & _ & Hframe);
    [ vm_compute; reflexivity | vm_compute; reflexivity | reflexivity | ].
  rewrite Hrun. split; [reflexivity | exact Hframe].
Defined.

(** C3 as stated fails: the remote Delete of the performance counter answers
    not-found, and Delete returns an error. *)
Lemma delete_not_found_counterexample :
  fst (@dataSources_Delete Example.scripted "rg1" "ws1" "counter1"
         (world Example.deleteMissingCounter))
  = (Example.missing, Example.notFoundError)
  /\ @ResponseWasNotFound Example.strict Example.missing = true
  /\ fst (@resourceArmLogAnalyticsDataSourceWindowsPerformanceCounterDelete
            Example.strict Example.scripted Example.deleteMissingCounter)
     = Err (Errorf
              "failed to delete Log Analytics DataSource Windows Performance Counter %q (Resource Group %q / Workspace: %q): %+v"
              ["counter1"; "rg1"; "ws1"] Example.notFoundError).
Proof. vm_compute. repeat split. Qed.

Lemma delete_outcomes_witness :
  fst (@resourceArmRecoveryServicesReplicationFabricDelete
         Example.strict Example.scripted Example.deleteFabricTwice) = Ok tt
  /\ fst (@resourceArmRecoveryServicesReplicationFabricDelete
            Example.strict Example.scripted
            (snd (@resourceArmRecoveryServicesReplicationFabricDelete
                    Example.strict Example.scripted Example.deleteFabricTwice)))
     = Ok tt
  /\ fst (@resourceArmLogAnalyticsDataSourceWindowsPerformanceCounterDelete
            Example.strict Example.scripted Example.deleteCounter) = Ok tt.
Proof.
  destruct (@delete_outcomes Example.strict Example.scripted
              Example.deleteFabricTwice) as (Hf & Htwice & _).
  destruct (@delete_outcomes Example.strict Example.scripted
              Example.deleteCounter) as (_ & _ & Hc).
  edestruct Hf as (out & st1 & Hrun & _ & Hok & _);
    [ vm_compute; reflexivity | vm_compute; reflexivity
    | vm_compute; reflexivity | vm_compute; reflexivity | ].
  assert (Hout : out = Ok tt) by (apply Hok; auto).
  subst out. rewrite Hrun. split; [reflexivity|]. split.
  - cbn [snd].
    assert (Hst1 : st1
                   = snd (@resourceArmRecoveryServicesReplicationFabricDelete
                            Example.strict Example.scripted
                            Example.deleteFabricTwice))
      by (rewrite Hrun; reflexivity).
    subst st1.
    edestruct Htwice as (st2 & Hrun2);
      [ exact Hrun | vm_compute; reflexivity | vm_compute; reflexivity
      | vm_compute; reflexivity | vm_compute; reflexivity
      | vm_compute; reflexivity | ].
    rewrite Hrun2. reflexivity.
  - edestruct Hc as (out & st' & Hrun' & _ & Hok' & _);
      [ vm_compute; reflexivity | vm_compute; reflexivity | ].
    rewrite Hrun'. apply Hok'. reflexivity.
Defined.

(** C4 as stated fails: the existence check finds nothing, the creation, the
    wait and the fetch succeed, and the Get of the closing Read fails with a
    server error; Create returns that error, and the identifier has been
    set. *)
Lemma create_error_with_id_counterexample :
  rd_id (d Example.createThenReadFails) = ""
  /\ fst (@resourceArmRecoveryServicesReplicationFabricCreate
            Example.strict Example.scripted Example.createThenReadFails)
     = Err (Errorf
              "Error making Read request on Recovery Service Replication Fabric %q (Resource Group %q, Vault %q): %+v"
              ["fabric1"; "rg1"; "vault1"] Example.serverError)
  /\ rd_id (d (snd (@resourceArmRecoveryServicesReplicationFabricCreate
                      Example.strict Example.scripted
                      Example.createThenReadFails)))
     = Example.fabricId.
Proof. vm_compute. repeat split. Qed.

Lemma create_sets_id_after_success_witness :
  rd_id (d (snd (@resourceArmRecoveryServicesReplicationFabricCreate
                   Example.strict Example.scripted Example.createFabric)))
  <> rd_id (d Example.createFabric)
  /\ exists pre res id w,
       length pre
       = (if @requireResourcesToBeImported Example.strict
             && rd_isNew (d Example.createFabric) then 1 else 0)%nat
       /\ Forall (@checkPassed Example.strict) pre
       /\ siterecovery.ID res = Some id
       /\ @resourceArmRecoveryServicesReplicationFabricRead
            Example.strict Example.scripted
            {| world := w;
               calls := calls Example.createFabric ++ pre ++
                 [ (ReplicationFabrics_Create
                      (stringAttr (d Example.createFabric)
                                  "resource_group_name")
                      (stringAttr (d Example.createFabric) "vault_name")
                      (stringAttr (d Example.createFabric) "name")
                      (azureFabric
                         (stringAttr (d Example.createFabric) "location")),
                    ReplyFuture None);
                   (CreateFuture_WaitForCompletionRef, ReplyWait None);
                   (CreateFuture_Result, ReplyFabric res None) ];
               d := ResourceData_SetId (d Example.createFabric) id |}
          = (fst (@resourceArmRecoveryServicesReplicationFabricCreate
                    Example.strict Example.scripted Example.createFabric),
             snd (@resourceArmRecoveryServicesReplicationFabricCreate
                    Example.strict Example.scripted Example.createFabric)).
Proof.
  assert (Hne : rd_id (d (snd (@resourceArmRecoveryServicesReplicationFabricCreate
                   Example.strict Example.scripted Example.createFabric)))
                <> rd_id (d Example.createFabric))
    by (vm_compute; discriminate).
  split; [exact Hne|].
  destruct (@create_sets_id_after_success Example.strict Example.scripted
              Example.createFabric) as [Hf _].
  exact (Hf _ _ (surjective_pairing _) Hne).
Defined.

(** C7 as stated fails: with the import-safety switch off, Create of the
    fabric returns nil without an existence check; and the Create of the
    performance counter returns nil without any wait. *)
Lemma create_order_counterexample :
  (fst (@resourceArmRecoveryServicesReplicationFabricCreate
          Example.lax Example.scripted Example.createFabricUnguarded) = Ok tt
   /\ kinds (calls (snd (@resourceArmRecoveryServicesReplicationFabricCreate
          Example.lax Example.scripted Example.createFabricUnguarded)))
      = [KSubmit; KWait; KResult; KGet])
  /\ (fst (@resourceArmLogAnalyticsDataSourceWindowsPerformanceCounterCreateUpdate
          Example.strict Example.scripted Example.createCounter) = Ok tt
      /\ kinds (calls (snd (@resourceArmLogAnalyticsDataSourceWindowsPerformanceCounterCreateUpdate
          Example.strict Example.scripted Example.createCounter)))
         = [KGet; KSubmit; KGet; KGet]).
Proof. vm_compute. repeat split. Qed.

Lemma create_call_order_witness :
  kinds (calls (snd (@resourceArmRecoveryServicesReplicationFabricCreate
                       Example.strict Example.scripted Example.createFabric)))
  = [KGet; KSubmit; KWait; KResult; KGet]
  /\ kinds (calls (snd (@resourceArmLogAnalyticsDataSourceWindowsPerformanceCounterCreateUpdate
                          Example.strict Example.scripted
                          Example.createCounter)))
     = [KGet; KSubmit; KGet; KGet].
Proof.
  split.
  - destruct (@create_call_order Example.strict Example.scripted
                Example.createFabric) as [Hf _].
    destruct (Hf _ _ (surjective_pairing _)) as (new & Hcalls & _ & Hok).
    rewrite Hcalls. apply Hok. vm_compute. reflexivity.
  - destruct (@create_call_order Example.strict Example.scripted
                Example.createCounter) as [_ Hc].
    destruct (Hc _ _ (surjective_pairing _)) as (new & Hcalls & _ & Hok).
    rewrite Hcalls. apply Hok. vm_compute. reflexivity.
Defined.

Lemma property_round_trip_witness :
  @roundTrips Example.strict Example.counterProperty.
Proof.
  apply (proj1 (proj2 (@property_round_trip Example.strict))
               Example.counterProperty "interval_seconds").
  reflexivity.
Defined.

Lemma identifier_round_trip_witness :
  IdCodec.parse IdCodec.fabricLayout
    (IdCodec.format IdCodec.fabricLayout Example.fabric1Identifier)
  = Success Example.fabric1Identifier
  /\ IdCodec.format IdCodec.fabricLayout Example.fabric1Identifier
     = Example.fabricId.
Proof.
  destruct (identifier_round_trip IdCodec.fabricLayout) as [Hpf Hfp].
  split.
  - apply Hpf.
    + repeat constructor.
    + repeat constructor.
  - apply (Hfp Example.fabricId Example.fabric1Identifier). reflexivity.
Defined.

Lemma fabric_is_create_only_witness :
  (forall k s,
      Schema_ (@resourceArmRecoveryServicesReplicationFabric
                 Example.strict Example.scripted) !! k = Some s ->
      ForceNew s = true)
  /\ (exists resourceGroup vault name resp props a location,
        calls (snd (@resourceArmRecoveryServicesReplicationFabricRead
                      Example.strict Example.scripted Example.readFabric))
        = calls Example.readFabric
          ++ [(ReplicationFabrics_Get resourceGroup vault name,
               ReplyFabric resp None)]
        /\ siterecovery.FabricProps resp = Some props
        /\ siterecovery.FabricCustomDetails props
           = Some (siterecovery.AzureDetails a)
        /\ siterecovery.DetailsLocation a = Some location
        /\ rd_attrs (d (snd (@resourceArmRecoveryServicesReplicationFabricRead
                      Example.strict Example.scripted Example.readFabric)))
             !! "location"
           = Some (VString (Example.normalizeLocation location))).
Proof.
  destruct (@fabric_is_create_only Example.strict Example.scripted)
    as (_ & _ & Hschema & _ & Hread).
  split.
  - apply Hschema; reflexivity.
  - refine (Hread Example.readFabric _ _ (surjective_pairing _) _).
    vm_compute. discriminate.
Defined.

(** * Further properties of the two adapters *)

(** ** Identifiers that do not parse *)

(** X1: when the stored identifier does not parse, Read and Delete of both
    resources return the error of the parser and do nothing else: no call is
    issued and the state is the one they were given. *)
Theorem malformed_id_is_returned `{helpers : Helpers} `{remote : Remote}
    (st : State) :
  (forall e,
      parseAzureResourceID (rd_id (d st)) = Failure e ->
      resourceArmRecoveryServicesReplicationFabricRead st = (Err e, st)
      /\ resourceArmRecoveryServicesReplicationFabricDelete st = (Err e, st))
  /\ (forall e,
      LogAnalyticsDataSourceID (rd_id (d st)) = Failure e ->
      resourceArmLogAnalyticsDataSourceWindowsPerformanceCounterRead st
      = (Err e, st)
      /\ resourceArmLogAnalyticsDataSourceWindowsPerformanceCounterDelete st
         = (Err e, st)).
Proof.
  split; intros e Hparse; split.
  - unfold resourceArmRecoveryServicesReplicationFabricRead. monad_ops.
    cbn. rewrite Hparse. reflexivity.
  - unfold resourceArmRecoveryServicesReplicationFabricDelete. monad_ops.
    cbn. rewrite Hparse. reflexivity.
  - unfold resourceArmLogAnalyticsDataSourceWindowsPerformanceCounterRead.
    monad_ops. cbn. rewrite Hparse. reflexivity.
  - unfold resourceArmLogAnalyticsDataSourceWindowsPerformanceCounterDelete.
    monad_ops. cbn. rewrite Hparse. reflexivity.
Qed.

(** ** Failures of Create *)

(** X2: when the guard applies and the Get of the existence check fails
    with anything but not-found, Create returns that failure wrapped in its
    own error, having issued the Get alone, and leaves the resource data as
    it was.  The fabric's message is given the name where its format asks
    for the vault. *)
Theorem create_check_failure `{helpers : Helpers} `{remote : Remote}
    (st : State) :
  rd_isNew (d st) = true ->
  (forall existing e w',
      requireResourcesToBeImported = true ->
      fabrics_Get (stringAttr (d st) "resource_group_name")
                  (stringAttr (d st) "vault_name")
                  (stringAttr (d st) "name") (world st)
      = ((existing, Some e), w') ->
      ResponseWasNotFound (siterecovery.FabricResponse existing) = false ->
      resourceArmRecoveryServicesReplicationFabricCreate st
      = (Err (Errorf
                "Error checking for presence of existing Recovery Service Replication Fabric %q (Resource Group %q, vault %q): %+v"
                [stringAttr (d st) "name";
                 stringAttr (d st) "resource_group_name";
                 stringAttr (d st) "name"] (Some e)),
         {| world := w';
            calls := calls st ++
              [(ReplicationFabrics_Get
                  (stringAttr (d st) "resource_group_name")
                  (stringAttr (d st) "vault_name")
                  (stringAttr (d st) "name"),
                ReplyFabric existing (Some e))];
            d := d st |}))
  /\ (forall resp e w',
      dataSources_Get (stringAttr (d st) "resource_group_name")
                      (stringAttr (d st) "workspace_name")
                      (stringAttr (d st) "name") (world st)
      = ((resp, Some e), w') ->
      ResponseWasNotFound (operationalinsights.DataSourceResponse resp)
      = false ->
      resourceArmLogAnalyticsDataSourceWindowsPerformanceCounterCreateUpdate st
      = (Err (Errorf
                "failed to check for existing Log Analytics DataSource Windows Performance Counter %q (Resource Group %q / Workspace: %q): %+v"
                [stringAttr (d st) "name";
                 stringAttr (d st) "resource_group_name";
                 stringAttr (d st) "workspace_name"] (Some e)),
         {| world := w';
            calls := calls st ++
              [(DataSources_Get
                  (stringAttr (d st) "resource_group_name")
                  (stringAttr (d st) "workspace_name")
                  (stringAttr (d st) "name"),
                ReplyDataSource resp (Some e))];
            d := d st |})).
Proof.
  intros Hnew. split.
  - intros existing e w' Hflag Hget Hnf.
    fabric_reads st. monad_ops. unfold fabricClient_Get, issue.
    rewrite Hflag, Hnew. cbn. rewrite Hget. cbn. rewrite Hnf. reflexivity.
  - intros resp e w' Hget Hnf.
    counter_reads st. monad_ops. unfold client_Get, issue.
    rewrite Hnew. cbn. rewrite Hget. cbn. rewrite Hnf. reflexivity.
Qed.

(** Membership of an event in a log that a run has been followed through. *)
Ltac event_cases Hin :=
  rewrite ?elem_of_app, ?elem_of_cons, ?list_elem_of_singleton in Hin;
  repeat match goal with
         | H : _ \/ _ |- _ => destruct H
         | H : _ ∈ [] |- _ => inversion H
         | H : (_, _) = (_, _) |- _ =>
             first [ discriminate H
                   | exfalso; congruence
                   | injection H as -> -> ]
         end.

Lemma log_grows_by (l new k : list Event) : l ++ k = l ++ new -> new = k.
Proof. intros H. apply app_inv_head in H. congruence. Qed.

Lemma log_unchanged (l new : list Event) : l = l ++ new -> new = [].
Proof.
  intros H. rewrite <- (app_nil_r l) in H at 1.
  apply app_inv_head in H. congruence.
Qed.

Ltac new_calls Hcalls :=
  cbn in Hcalls; rewrite <- ?app_assoc in Hcalls;
  first [ apply log_unchanged in Hcalls | apply log_grows_by in Hcalls ];
  subst.

(** X3: a fabric Create whose creation request, wait or fetch of the result
    is answered with an error stops there: it returns that error wrapped in
    "Error creating/updating Recovery Service Vault", the failed call is the
    last one in the log, and the resource data is as it was.  The message is
    given the vault where its format asks for the resource group, and the
    resource group where it asks for the vault. *)
Theorem fabric_create_step_failure `{helpers : Helpers} `{remote : Remote}
    (st : State) :
  forall out st' new c r e,
    resourceArmRecoveryServicesReplicationFabricCreate st = (out, st') ->
    calls st' = calls st ++ new ->
    (c, r) ∈ new -> kind c <> KGet -> replyError r = Some e ->
    out = Err (Errorf
                 "Error creating/updating Recovery Service Vault %q (Resource Group %q, Vault %q): %+v"
                 [stringAttr (d st) "name"; stringAttr (d st) "vault_name";
                  stringAttr (d st) "resource_group_name"] (Some e))
    /\ d st' = d st
    /\ last new = Some (c, r).
Proof.
  intros out st' new c0 r0 e0. fabric_reads st.
  remember resourceArmRecoveryServicesReplicationFabricRead as read.
  monad_ops.
  unfold fabricClient_Get, fabricClient_Create, createFuture_Wait,
    createFuture_Res, issue.
  cbn. intros H Hcalls Hin Hk He.
  destruct (requireResourcesToBeImported && rd_isNew (d st));
    cbn in H; branch_on_hyp H.
  all: try (close_run H; new_calls Hcalls; event_cases Hin;
            cbn in Hk, He; try congruence;
            injection He as <-; repeat split; reflexivity).
  all: subst read; apply fabricRead_effect in H; cbn in H.
  all: destruct H as (_ & post & Hpost & Hkinds); rewrite Hpost in Hcalls.
  all: new_calls Hcalls; event_cases Hin; cbn in Hk, He; try congruence.
  all: exfalso; apply Hk; eapply only_gets; [|eassumption]; tauto.
Qed.

(** X4: when the fetch of the result succeeds but the fabric it returns has
    no ID, the fabric's Create panics on dereferencing it.  By then the
    creation has been requested and has completed, so the fabric exists
    remotely while the resource data, the identifier included, is as it
    was. *)
Theorem fabric_create_result_without_id `{helpers : Helpers}
    `{remote : Remote} (st : State) :
  forall out st' new res,
    resourceArmRecoveryServicesReplicationFabricCreate st = (out, st') ->
    calls st' = calls st ++ new ->
    (CreateFuture_Result, ReplyFabric res None) ∈ new ->
    siterecovery.ID res = None ->
    out = Panic
    /\ d st' = d st
    /\ kinds new
       = (if requireResourcesToBeImported && rd_isNew (d st)
          then [KGet] else [])
         ++ [KSubmit; KWait; KResult].
Proof.
  intros out st' new res. fabric_reads st.
  remember resourceArmRecoveryServicesReplicationFabricRead as read.
  monad_ops.
  unfold fabricClient_Get, fabricClient_Create, createFuture_Wait,
    createFuture_Res, issue.
  cbn. intros H Hcalls Hin Hid.
  destruct (requireResourcesToBeImported && rd_isNew (d st));
    cbn in H; branch_on_hyp H.
  all: try (close_run H; new_calls Hcalls; event_cases Hin;
            try congruence; repeat split; reflexivity).
  all: subst read; apply fabricRead_effect in H; cbn in H.
  all: destruct H as (_ & post & Hpost & Hkinds); rewrite Hpost in Hcalls.
  all: new_calls Hcalls; event_cases Hin; try congruence.
  all: exfalso;
    match goal with
    | Hp : (CreateFuture_Result, _) ∈ _ |- _ =>
        eapply only_gets in Hp; [discriminate Hp | tauto]
    end.
Qed.

(** X5: a Create or Update of the performance counter whose CreateOrUpdate
    is answered with an error stops there: it returns that error wrapped in
    "failed to create", the failed call is the last one in the log, and the
    resource data is as it was. *)
Theorem counter_submit_failure `{helpers : Helpers} `{remote : Remote}
    (st : State) :
  forall out st' new c r e,
    resourceArmLogAnalyticsDataSourceWindowsPerformanceCounterCreateUpdate st
    = (out, st') ->
    calls st' = calls st ++ new ->
    (c, r) ∈ new -> kind c = KSubmit -> replyError r = Some e ->
    out = Err (Errorf
                 "failed to create Log Analytics DataSource Windows Performance Counter %q (Resource Group %q / Workspace: %q): %+v"
                 [stringAttr (d st) "name";
                  stringAttr (d st) "resource_group_name";
                  stringAttr (d st) "workspace_name"] (Some e))
    /\ d st' = d st
    /\ last new = Some (c, r).
Proof.
  intros out st' new c0 r0 e0. counter_reads st.
  remember resourceArmLogAnalyticsDataSourceWindowsPerformanceCounterRead
    as read.
  monad_ops. unfold client_Get, client_CreateOrUpdate, issue.
  cbn. intros H Hcalls Hin Hk He.
  destruct (rd_isNew (d st)); cbn in H; branch_on_hyp H.
  all: try (close_run H; new_calls Hcalls; event_cases Hin;
            cbn in Hk, He; try congruence;
            injection He as <-; repeat split; reflexivity).
  all: subst read; apply counterRead_effect in H; cbn in H.
  all: destruct H as (_ & post & Hpost & Hkinds); rewrite Hpost in Hcalls.
  all: new_calls Hcalls; event_cases Hin; cbn in Hk, He; try congruence.
  all: exfalso;
    match goal with
    | Hp : (_, _) ∈ _ |- _ =>
        eapply only_gets in Hp; [rewrite Hp in Hk; discriminate Hk | tauto]
    end.
Qed.

(** ** Create, step by step *)

Ltac checked_cases Hcheck :=
  destruct Hcheck as [(Hguard & -> & ->)
                     | (Hguard & ex & cerr & Hget & -> & Hpassed)];
  [| apply Forall_cons in Hpassed as [Hpassed _]; cbn in Hpassed ].

(** X6: once the existence check is behind it and the creation request, the
    wait and the fetch of the result have succeeded with a fabric that has
    an ID, the fabric's Create sets the identifier to that ID and is, from
    there on, the Read of the resource: its result and its final state are
    those of that Read. *)
Theorem fabric_create_succeeds `{helpers : Helpers} `{remote : Remote}
    (st : State) :
  forall w0 pre future w1 w2 res w3 id,
    fabricChecked st w0 pre ->
    fabrics_Create (stringAttr (d st) "resource_group_name")
                   (stringAttr (d st) "vault_name")
                   (stringAttr (d st) "name")
                   (azureFabric (stringAttr (d st) "location")) w0
    = ((future, None), w1) ->
    createFuture_WaitForCompletionRef future w1 = (None, w2) ->
    createFuture_Result future w2 = ((res, None), w3) ->
    siterecovery.ID res = Some id ->
    resourceArmRecoveryServicesReplicationFabricCreate st
    = resourceArmRecoveryServicesReplicationFabricRead
        {| world := w3;
           calls := calls st ++ pre ++
             [ (ReplicationFabrics_Create
                  (stringAttr (d st) "resource_group_name")
                  (stringAttr (d st) "vault_name")
                  (stringAttr (d st) "name")
                  (azureFabric (stringAttr (d st) "location")),
                ReplyFuture None);
               (CreateFuture_WaitForCompletionRef, ReplyWait None);
               (CreateFuture_Result, ReplyFabric res None) ];
           d := ResourceData_SetId (d st) id |}.
Proof.
  intros w0 pre future w1 w2 res w3 id Hcheck Hcreate Hwait Hres Hid.
  unfold azureFabric in Hcreate.
  fabric_reads st.
  remember resourceArmRecoveryServicesReplicationFabricRead as read.
  monad_ops.
  unfold fabricClient_Get, fabricClient_Create, createFuture_Wait,
    createFuture_Res, issue.
  cbn. checked_cases Hcheck; rewrite Hguard; cbn.
  - rewrite Hcreate. cbn. rewrite Hwait. cbn. rewrite Hres. cbn.
    rewrite Hid. cbn. rewrite <- !app_assoc. reflexivity.
  - rewrite Hget. cbn.
    destruct Hpassed as [Herr Hno].
    destruct cerr as [e|]; cbn.
    + destruct Herr as [Herr|Herr]; [discriminate|]. rewrite Herr. cbn.
      destruct Hno as [-> | ->]; cbn;
        rewrite Hcreate; cbn; rewrite Hwait; cbn; rewrite Hres; cbn;
        rewrite Hid; cbn; rewrite <- !app_assoc; reflexivity.
    + destruct Hno as [-> | ->]; cbn;
        rewrite Hcreate; cbn; rewrite Hwait; cbn; rewrite Hres; cbn;
        rewrite Hid; cbn; rewrite <- !app_assoc; reflexivity.
Qed.

(** X7: once the existence check is behind it, the rest of the performance
    counter's Create or Update is decided by the CreateOrUpdate and the Get
    that follows it.  If the Get fails, with not-found or with anything
    else, the result is "failed to retrieve"; if it succeeds without an ID
    or with an empty one, the result is "Cannot read ID"; in both cases the
    resource data is as it was, although the counter has been written
    remotely.  If the Get succeeds with an ID, the identifier is set to it
    and the function is, from there on, the Read of the resource. *)
Theorem counter_create_after_submit `{helpers : Helpers} `{remote : Remote}
    (st : State) :
  forall w0 pre sent w1 resp err w2,
    counterChecked st w0 pre ->
    dataSources_CreateOrUpdate (stringAttr (d st) "resource_group_name")
                               (stringAttr (d st) "workspace_name")
                               (stringAttr (d st) "name")
                               (counterParams (d st)) w0
    = ((sent, None), w1) ->
    dataSources_Get (stringAttr (d st) "resource_group_name")
                    (stringAttr (d st) "workspace_name")
                    (stringAttr (d st) "name") w1
    = ((resp, err), w2) ->
    let after :=
      {| world := w2;
         calls := calls st ++ pre ++
           [ (DataSources_CreateOrUpdate
                (stringAttr (d st) "resource_group_name")
                (stringAttr (d st) "workspace_name")
                (stringAttr (d st) "name")
                (counterParams (d st)),
              ReplyDataSource sent None);
             (DataSources_Get
                (stringAttr (d st) "resource_group_name")
                (stringAttr (d st) "workspace_name")
                (stringAttr (d st) "name"),
              ReplyDataSource resp err) ];
         d := d st |} in
    resourceArmLogAnalyticsDataSourceWindowsPerformanceCounterCreateUpdate st
    = match err, operationalinsights.ID resp with
      | Some e, _ =>
          (Err (Errorf
                  "failed to retrieve Log Analytics DataSource Windows Performance Counter %q (Resource Group %q): %+v"
                  [stringAttr (d st) "name";
                   stringAttr (d st) "resource_group_name"] (Some e)),
           after)
      | None, Some id =>
          if String.eqb id ""
          then (Err (Errorf
                       "Cannot read ID for Log Analytics DataSource Windows Performance Counter %q (Resource Group %q)"
                       [stringAttr (d st) "name";
                        stringAttr (d st) "resource_group_name"] None),
                after)
          else resourceArmLogAnalyticsDataSourceWindowsPerformanceCounterRead
                 {| world := w2; calls := calls after;
                    d := ResourceData_SetId (d st) id |}
      | None, None =>
          (Err (Errorf
                  "Cannot read ID for Log Analytics DataSource Windows Performance Counter %q (Resource Group %q)"
                  [stringAttr (d st) "name";
                   stringAttr (d st) "resource_group_name"] None),
           after)
      end.
Proof.
  intros w0 pre sent w1 resp err w2 Hcheck Hsubmit Hget2.
  unfold counterParams in Hsubmit. cbn zeta.
  counter_reads st.
  remember resourceArmLogAnalyticsDataSourceWindowsPerformanceCounterRead
    as read.
  unfold bind at 1, d_IsNewResource, with_d.
  checked_cases Hcheck; rewrite Hguard.
  - unfold bind at 1, ret.
    counter_props st.
    monad_ops. unfold client_CreateOrUpdate, client_Get, issue. cbn.
    rewrite Hsubmit. cbn. rewrite Hget2. cbn.
    destruct err as [e|]; cbn; rewrite <- ?app_assoc; [reflexivity|].
    destruct (operationalinsights.ID resp) as [id|]; [|reflexivity].
    destruct (String.eqb id ""); reflexivity.
  - unfold bind at 1. unfold bind at 1. unfold client_Get at 1, issue.
    rewrite Hget. cbn [fst snd].
    rewrite Hpassed. cbn [negb].
    destruct cerr as [e0|].
    all: unfold bind at 1, ret at 1; cbn [world calls d].
    all: unfold ret at 1.
    all: match goal with
         | |- context [bind (d_GetString counterSchema "counter_name") _ ?s] =>
             rewrite (bind_Ok _ _ _ _ _ (counter_counter_name s));
             rewrite (bind_Ok _ _ _ _ _ (counter_instance_name s));
             rewrite (bind_Ok _ _ _ _ _ (counter_interval_seconds s));
             rewrite (bind_Ok _ _ _ _ _ (counter_object_name s))
         end.
    all: monad_ops; unfold client_CreateOrUpdate, client_Get, issue; cbn.
    all: rewrite Hsubmit; cbn; rewrite Hget2; cbn.
    all: destruct err as [e|]; cbn; rewrite <- ?app_assoc; [reflexivity|].
    all: destruct (operationalinsights.ID resp) as [id|]; [|reflexivity].
    all: destruct (String.eqb id ""); reflexivity.
Qed.

(** ** What Read writes *)

(** X8: a fabric Read whose Get succeeds with a response that has no
    properties, or whose properties have no custom details, panics: the
    method is called through the nil pointer. *)
Theorem fabric_read_without_details `{helpers : Helpers} `{remote : Remote}
    (st : State) :
  forall id resp w',
    parseAzureResourceID (rd_id (d st)) = Success id ->
    fabrics_Get (ResourceGroup id) (index (Path id) "vaults")
                (index (Path id) "replicationFabrics") (world st)
    = ((resp, None), w') ->
    siterecovery.FabricProps resp = None
    \/ (exists props,
          siterecovery.FabricProps resp = Some props
          /\ siterecovery.FabricCustomDetails props = None) ->
    fst (resourceArmRecoveryServicesReplicationFabricRead st) = Panic.
Proof.
  intros id resp w' Hparse Hget Hnil.
  unfold resourceArmRecoveryServicesReplicationFabricRead.
  monad_ops. unfold fabricClient_Get, issue. cbn.
  rewrite Hparse. cbn. rewrite Hget. cbn.
  destruct Hnil as [Hprops | (props & Hprops & Hdetails)];
    rewrite Hprops; cbn; [reflexivity|].
  rewrite Hdetails. reflexivity.
Qed.

(** X9: a fabric Read whose Get succeeds with custom details returns nil.
    It takes [name] from the response, and [resource_group_name] and
    [vault_name] from the identifier, not from the response; it sets
    [location], normalized, when the details are the Azure ones and carry a
    location, and leaves it alone otherwise.  The identifier and every
    other attribute are as they were. *)
Theorem fabric_read_populates `{helpers : Helpers} `{remote : Remote}
    (st : State) :
  forall id resp w' props details,
    parseAzureResourceID (rd_id (d st)) = Success id ->
    fabrics_Get (ResourceGroup id) (index (Path id) "vaults")
                (index (Path id) "replicationFabrics") (world st)
    = ((resp, None), w') ->
    siterecovery.FabricProps resp = Some props ->
    siterecovery.FabricCustomDetails props = Some details ->
    exists st',
      resourceArmRecoveryServicesReplicationFabricRead st = (Ok tt, st')
      /\ rd_id (d st') = rd_id (d st)
      /\ rd_attrs (d st') !! "name"
         = Some (ofStringPtr (siterecovery.Name resp))
      /\ rd_attrs (d st') !! "resource_group_name"
         = Some (VString (ResourceGroup id))
      /\ rd_attrs (d st') !! "vault_name"
         = Some (VString (index (Path id) "vaults"))
      /\ rd_attrs (d st') !! "location"
         = match details with
           | siterecovery.AzureDetails
               {| siterecovery.DetailsLocation := Some location |} =>
               Some (VString (azureRMNormalizeLocation location))
           | _ => rd_attrs (d st) !! "location"
           end
      /\ (forall k,
            k <> "name" -> k <> "resource_group_name" ->
            k <> "vault_name" -> k <> "location" ->
            rd_attrs (d st') !! k = rd_attrs (d st) !! k).
Proof.
  intros id resp w' props details Hparse Hget Hprops Hdetails.
  unfold resourceArmRecoveryServicesReplicationFabricRead.
  monad_ops. unfold fabricClient_Get, issue. cbn.
  rewrite Hparse. cbn. rewrite Hget. cbn. rewrite Hprops. cbn.
  rewrite Hdetails. cbn.
  destruct details as [[[location|]]|other]; cbn.
  all: eexists; split; [reflexivity|]; cbn.
  all: split; [reflexivity|].
  all: repeat split.
  all: try (intros k H1 H2 H3 H4).
  all: rewrite ?lookup_insert_eq; rewrite ?lookup_insert_ne by congruence.
  all: rewrite ?lookup_insert_eq; rewrite ?lookup_insert_ne by congruence.
  all: rewrite ?lookup_insert_eq; reflexivity.
Qed.

(** X10: when the document that Create sends for a property record comes
    back as the properties of a successful Get, Read returns nil and the
    four counter attributes hold the fields of that record, provided its
    interval is one a [float64] holds exactly; [name] is taken from the
    response and [resource_group_name] and [workspace_name] from the
    identifier. *)
Theorem counter_read_populates `{helpers : Helpers} `{remote : Remote}
    (st : State) :
  forall id resp w' p,
    LogAnalyticsDataSourceID (rd_id (d st)) = Success id ->
    dataSources_Get (ds_ResourceGroup id) (ds_Workspace id) (ds_Name id)
                    (world st)
    = ((resp, None), w') ->
    operationalinsights.Properties resp = decodeInterface (Marshal p) ->
    (Z.abs (IntervalSeconds p) <= 2 ^ 53)%Z ->
    exists st',
      resourceArmLogAnalyticsDataSourceWindowsPerformanceCounterRead st
      = (Ok tt, st')
      /\ rd_id (d st') = rd_id (d st)
      /\ rd_attrs (d st') !! "name"
         = Some (ofStringPtr (operationalinsights.Name resp))
      /\ rd_attrs (d st') !! "resource_group_name"
         = Some (VString (ds_ResourceGroup id))
      /\ rd_attrs (d st') !! "workspace_name"
         = Some (VString (ds_Workspace id))
      /\ rd_attrs (d st') !! "counter_name" = Some (VString (CounterName p))
      /\ rd_attrs (d st') !! "instance_name" = Some (VString (InstanceName p))
      /\ rd_attrs (d st') !! "interval_seconds"
         = Some (VInt (IntervalSeconds p))
      /\ rd_attrs (d st') !! "object_name" = Some (VString (ObjectName p)).
Proof.
  intros id resp w' p Hparse Hget Hprops Hexact.
  destruct (round_trip_of_exact p Hexact) as (input & text & Hmap & Hflat & Hun).
  unfold resourceArmLogAnalyticsDataSourceWindowsPerformanceCounterRead.
  monad_ops. unfold client_Get, assertMap, issue, ret. cbn.
  rewrite Hparse. cbn. rewrite Hget. cbn. rewrite Hprops, Hmap.
  rewrite Hflat, Hun. cbn.
  eexists. split; [reflexivity|]. cbn.
  repeat split.
  all: rewrite ?lookup_insert_eq; rewrite ?lookup_insert_ne by congruence.
  all: rewrite ?lookup_insert_eq; rewrite ?lookup_insert_ne by congruence.
  all: rewrite ?lookup_insert_eq; rewrite ?lookup_insert_ne by congruence.
  all: rewrite ?lookup_insert_eq; rewrite ?lookup_insert_ne by congruence.
  all: rewrite ?lookup_insert_eq; rewrite ?lookup_insert_ne by congruence.
  all: rewrite ?lookup_insert_eq; rewrite ?lookup_insert_ne by congruence.
  all: rewrite ?lookup_insert_eq; reflexivity.
Qed.

(** X11: a performance counter Read whose Get succeeds with properties that
    are an empty map fails: the map is flattened to the empty string, which
    does not decode, and Read returns "failed to decode properties json"
    after it has written [name], [resource_group_name] and [workspace_name].
    With properties that are neither nil nor a map, the type assertion
    panics. *)
Theorem counter_read_bad_properties `{helpers : Helpers} `{remote : Remote}
    (st : State) :
  forall id resp w',
    LogAnalyticsDataSourceID (rd_id (d st)) = Success id ->
    dataSources_Get (ds_ResourceGroup id) (ds_Workspace id) (ds_Name id)
                    (world st)
    = ((resp, None), w') ->
    (operationalinsights.Properties resp = GMap ∅ ->
     fst (resourceArmLogAnalyticsDataSourceWindowsPerformanceCounterRead st)
     = Err (Errorf
              "failed to decode properties json for Log Analytics DataSource Windows Performance Counter %q (Resource Group %q / Workspace: %q): %+v"
              [ds_Name id; ds_ResourceGroup id; ds_Workspace id]
              (Some (SdkError "unexpected end of JSON input"))))
    /\ (operationalinsights.Properties resp <> GNil ->
        (forall m, operationalinsights.Properties resp <> GMap m) ->
        fst (resourceArmLogAnalyticsDataSourceWindowsPerformanceCounterRead st)
        = Panic).
Proof.
  intros id resp w' Hparse Hget. split.
  - intros Hempty.
    unfold resourceArmLogAnalyticsDataSourceWindowsPerformanceCounterRead.
    monad_ops. unfold client_Get, assertMap, issue, ret. cbn.
    rewrite Hparse. cbn. rewrite Hget. cbn. rewrite Hempty. reflexivity.
  - intros Hnil Hmap.
    unfold resourceArmLogAnalyticsDataSourceWindowsPerformanceCounterRead.
    monad_ops. unfold client_Get, assertMap, issue, ret, panic. cbn.
    rewrite Hparse. cbn. rewrite Hget. cbn.
    destruct (operationalinsights.Properties resp) as [| | | | |m|];
      try reflexivity; [contradiction | now specialize (Hmap m)].
Qed.

(** ** Decoding a properties document *)

Lemma setField_storable f v p :
  snd (setField f v p) = None <-> storable f v = true.
Proof.
  destruct v as [| b | [z|] | s | l | m | q], f; cbn;
    try (split; [reflexivity | reflexivity]);
    try (split; discriminate).
  destruct ((- 2 ^ 63 <=? z)%Z && (z <? 2 ^ 63)%Z); cbn;
    split; try reflexivity; discriminate.
Qed.

Lemma unmarshalMember_error `{helpers : Helpers} acc kv :
  snd (unmarshalMember acc kv) = None
  <-> snd acc = None
      /\ (forall f, findField (fst kv) = Some f -> storable f (snd kv) = true).
Proof.
  unfold unmarshalMember. destruct (findField (fst kv)) as [f|].
  - destruct (setField f (snd kv) (fst acc)) as [p e] eqn:E.
    assert (He : e = snd (setField f (snd kv) (fst acc))) by now rewrite E.
    cbn. destruct (snd acc) as [e0|].
    + split; [discriminate | intros [? _]; discriminate].
    + rewrite He, setField_storable. split.
      * intros Hs. split; [reflexivity|]. now intros f' [= <-].
      * intros [_ Hs]. now apply Hs.
  - split; [intros H; split; [exact H | discriminate] | tauto].
Qed.

Lemma unmarshal_fold_error `{helpers : Helpers} members acc :
  snd (fold_left unmarshalMember members acc) = None
  <-> snd acc = None
      /\ Forall (fun kv =>
                   forall f, findField (fst kv) = Some f ->
                             storable f (snd kv) = true) members.
Proof.
  revert acc. induction members as [|kv members IH]; intros acc; cbn.
  - split; [intros H; split; [exact H | constructor] | tauto].
  - rewrite IH, unmarshalMember_error. split.
    + intros [[Ha Hkv] Hrest]. split; [exact Ha | now constructor].
    + intros [Ha Hall]. apply Forall_cons in Hall as [Hkv Hrest]. tauto.
Qed.

Lemma unmarshal_fold_skips `{helpers : Helpers} members acc :
  Forall (fun kv => findField (fst kv) = None) members ->
  fold_left unmarshalMember members acc = acc.
Proof.
  revert acc. induction members as [|kv members IH]; intros acc Hall;
    [reflexivity|].
  apply Forall_cons in Hall as [Hkv Hrest]. cbn.
  unfold unmarshalMember at 2. rewrite Hkv. now apply IH.
Qed.

(** X12: decoding a document into the property struct succeeds exactly when
    every member that selects a field, by its name or by its name up to
    case, holds a null or a value of the field's type: a string for the
    three names, a number that is an [int] for the interval.  Members that
    select no field are skipped, so a document in which no member selects a
    field decodes, with no error, to the struct as it was: a missing member
    is not an error. *)
Theorem unmarshal_errors `{helpers : Helpers}
    (members : list (string * GoValue))
    (p : dataSourceWindowsPerformanceCounterProperty) :
  (snd (Unmarshal (DocObject members) p) = None
   <-> Forall (fun kv =>
                 forall f, findField (fst kv) = Some f ->
                           storable f (snd kv) = true) members)
  /\ (Forall (fun kv => findField (fst kv) = None) members ->
      Unmarshal (DocObject members) p = (p, None)).
Proof.
  split.
  - cbn. rewrite unmarshal_fold_error. cbn. tauto.
  - intros Hskip. cbn. now apply unmarshal_fold_skips.
Qed.

(** ** Delete *)

(** X13: the calls of a fabric Delete are an initial segment of delete
    request, wait and fetch of the result, in this order, and all three
    when Delete returns nil; the performance counter's Delete issues its
    delete request and nothing else.  Neither issues a Get or a submission,
    and neither changes the resource data: the identifier stays set. *)
Theorem delete_call_order `{helpers : Helpers} `{remote : Remote}
    (st : State) :
  (forall out st',
      resourceArmRecoveryServicesReplicationFabricDelete st = (out, st') ->
      d st' = d st
      /\ exists new,
           calls st' = calls st ++ new
           /\ kinds new `prefix_of` [KDelete; KWait; KResult]
           /\ (out = Ok tt -> kinds new = [KDelete; KWait; KResult]))
  /\ (forall out st',
      resourceArmLogAnalyticsDataSourceWindowsPerformanceCounterDelete st
      = (out, st') ->
      d st' = d st
      /\ exists new,
           calls st' = calls st ++ new
           /\ kinds new `prefix_of` [KDelete]
           /\ (out = Ok tt -> kinds new = [KDelete])).
Proof.
  split.
  - intros out st'.
    unfold resourceArmRecoveryServicesReplicationFabricDelete.
    monad_ops.
    unfold fabricClient_Delete, deleteFuture_Wait, deleteFuture_Res, issue.
    cbn. intros H. branch_on_hyp H.
    all: close_run H; (split; [reflexivity|]); log_extension; order_leaf.
  - intros out st'.
    unfold resourceArmLogAnalyticsDataSourceWindowsPerformanceCounterDelete.
    monad_ops. unfold client_Delete, issue.
    cbn. intros H. branch_on_hyp H.
    all: close_run H; (split; [reflexivity|]); log_extension; order_leaf.
Qed.

(** ** Read, seen from outside *)

Ltac frame_leaf :=
  let k := fresh "k" in
  let Hk := fresh "Hk" in
  intros k Hk;
  repeat (rewrite lookup_insert_ne;
          [| intros <-; apply Hk; set_solver ]);
  reflexivity.

(** X14: Read changes nothing on the remote side and little locally.  Each
    call it issues is a Get; it keeps the new-resource mark; and the only
    attributes it may change are the ones of its schema entry: [name],
    [resource_group_name], [vault_name] and [location] for the fabric, and
    the seven attributes of the performance counter. *)
Theorem read_is_read_only `{helpers : Helpers} `{remote : Remote}
    (st : State) :
  (forall out st',
      resourceArmRecoveryServicesReplicationFabricRead st = (out, st') ->
      rd_isNew (d st') = rd_isNew (d st)
      /\ (exists new,
            calls st' = calls st ++ new
            /\ Forall (fun ev => mutating (fst ev) = false) new)
      /\ (forall k,
            k ∉ ["name"; "resource_group_name"; "vault_name"; "location"] ->
            rd_attrs (d st') !! k = rd_attrs (d st) !! k))
  /\ (forall out st',
      resourceArmLogAnalyticsDataSourceWindowsPerformanceCounterRead st
      = (out, st') ->
      rd_isNew (d st') = rd_isNew (d st)
      /\ (exists new,
            calls st' = calls st ++ new
            /\ Forall (fun ev => mutating (fst ev) = false) new)
      /\ (forall k,
            k ∉ ["name"; "resource_group_name"; "workspace_name";
                 "counter_name"; "instance_name"; "interval_seconds";
                 "object_name"] ->
            rd_attrs (d st') !! k = rd_attrs (d st) !! k)).
Proof.
  split.
  - intros out st'.
    unfold resourceArmRecoveryServicesReplicationFabricRead.
    monad_ops. unfold fabricClient_Get, issue. cbn. intros H.
    branch_on_hyp H; close_run H.
    all: split; [reflexivity|].
    all: split; [log_extension; repeat constructor | frame_leaf].
  - intros out st'.
    unfold resourceArmLogAnalyticsDataSourceWindowsPerformanceCounterRead.
    monad_ops. unfold client_Get, assertMap, issue, ret, panic. cbn.
    intros H.
    branch_on_hyp H; close_run H.
    all: split; [reflexivity|].
    all: split; [log_extension; repeat constructor | frame_leaf].
Qed.

(** X15: every submission of the performance counter's Create or Update
    carries the kind WindowsPerformanceCounter and, as its properties, the
    record made of the four configured attributes; it is addressed by the
    configured resource group, workspace and name. *)
Theorem counter_submits_configuration `{helpers : Helpers} `{remote : Remote}
    (st : State) :
  forall out st' new c r,
    resourceArmLogAnalyticsDataSourceWindowsPerformanceCounterCreateUpdate st
    = (out, st') ->
    calls st' = calls st ++ new ->
    (c, r) ∈ new -> kind c = KSubmit ->
    exists params,
      c = DataSources_CreateOrUpdate
            (stringAttr (d st) "resource_group_name")
            (stringAttr (d st) "workspace_name")
            (stringAttr (d st) "name") params
      /\ operationalinsights.Kind params = "WindowsPerformanceCounter"
      /\ operationalinsights.Properties params
         = GProperty {| CounterName := stringAttr (d st) "counter_name";
                        InstanceName := stringAttr (d st) "instance_name";
                        IntervalSeconds := intAttr (d st) "interval_seconds";
                        ObjectName := stringAttr (d st) "object_name" |}.
Proof.
  intros out st' new c0 r0. counter_reads st.
  remember resourceArmLogAnalyticsDataSourceWindowsPerformanceCounterRead
    as read.
  monad_ops. unfold client_Get, client_CreateOrUpdate, issue.
  cbn. intros H Hcalls Hin Hk.
  destruct (rd_isNew (d st)); cbn in H; branch_on_hyp H.
  all: try (close_run H; new_calls Hcalls; event_cases Hin;
            cbn in Hk;
            first [ congruence
                  | eexists; split; [reflexivity|split; reflexivity] ]).
  all: subst read; apply counterRead_effect in H; cbn in H.
  all: destruct H as (_ & post & Hpost & Hkinds); rewrite Hpost in Hcalls.
  all: new_calls Hcalls; event_cases Hin; cbn in Hk; try congruence.
  all: try (eexists; split; [reflexivity|split; reflexivity]).
  all: exfalso;
    match goal with
    | Hp : (_, _) ∈ _ |- _ =>
        eapply only_gets in Hp; [rewrite Hp in Hk; discriminate Hk | tauto]
    end.
Qed.

Lemma resource_data_eq (a b : ResourceData) :
  rd_id a = rd_id b -> rd_isNew a = rd_isNew b ->
  (forall k, rd_attrs a !! k = rd_attrs b !! k) -> a = b.
Proof.
  destruct a, b. cbn. intros -> -> H. f_equal. now apply map_eq.
Qed.

Ltac same_data :=
  apply resource_data_eq; cbn; [reflexivity | reflexivity |];
  let k := fresh "k" in
  intros k; rewrite !lookup_insert; repeat case_decide; congruence.

(** X16: Read is idempotent against a remote side that answers the same.
    When a Read has returned nil on a successful Get, a second Read, from
    the state the first one left and given the same response, returns nil
    and leaves the resource data exactly as the first one left it. *)
Theorem read_is_idempotent `{helpers : Helpers} `{remote : Remote}
    (st : State) :
  (forall id resp w1 w2 st1,
      parseAzureResourceID (rd_id (d st)) = Success id ->
      fabrics_Get (ResourceGroup id) (index (Path id) "vaults")
                  (index (Path id) "replicationFabrics") (world st)
      = ((resp, None), w1) ->
      fabrics_Get (ResourceGroup id) (index (Path id) "vaults")
                  (index (Path id) "replicationFabrics") w1
      = ((resp, None), w2) ->
      resourceArmRecoveryServicesReplicationFabricRead st = (Ok tt, st1) ->
      exists st2,
        resourceArmRecoveryServicesReplicationFabricRead st1 = (Ok tt, st2)
        /\ d st2 = d st1)
  /\ (forall id resp w1 w2 st1,
      LogAnalyticsDataSourceID (rd_id (d st)) = Success id ->
      dataSources_Get (ds_ResourceGroup id) (ds_Workspace id) (ds_Name id)
                      (world st)
      = ((resp, None), w1) ->
      dataSources_Get (ds_ResourceGroup id) (ds_Workspace id) (ds_Name id) w1
      = ((resp, None), w2) ->
      resourceArmLogAnalyticsDataSourceWindowsPerformanceCounterRead st
      = (Ok tt, st1) ->
      exists st2,
        resourceArmLogAnalyticsDataSourceWindowsPerformanceCounterRead st1
        = (Ok tt, st2)
        /\ d st2 = d st1).
Proof.
  split.
  - intros id resp w1 w2 st1 Hparse Hget1 Hget2.
    unfold resourceArmRecoveryServicesReplicationFabricRead.
    monad_ops. unfold fabricClient_Get, issue. cbn.
    rewrite Hparse. cbn. rewrite Hget1. cbn. intros H.
    branch_on_hyp H; try discriminate H.
    all: injection H as <-; cbn; rewrite Hparse; cbn; rewrite Hget2; cbn.
    all: answers.
    all: eexists; split; [reflexivity|]; cbn.
    all: same_data.
  - intros id resp w1 w2 st1 Hparse Hget1 Hget2.
    unfold resourceArmLogAnalyticsDataSourceWindowsPerformanceCounterRead.
    monad_ops. unfold client_Get, assertMap, issue, ret, panic. cbn.
    rewrite Hparse. cbn. rewrite Hget1. cbn. intros H.
    branch_on_hyp H; try discriminate H.
    all: injection H as <-; cbn; rewrite Hparse; cbn; rewrite Hget2; cbn.
    all: answers.
    all: eexists; split; [reflexivity|]; cbn.
    all: same_data.
Qed.

(** ** Validation of the fabric's names *)

Lemma isLetter_isNameChar c : isLetter c = true -> isNameChar c = true.
Proof. unfold isNameChar. intros ->. reflexivity. Qed.

Lemma length_list_ascii s :
  length (list_ascii_of_string s) = String.length s.
Proof. induction s as [|c s IH]; cbn; [reflexivity | now rewrite IH]. Qed.

(** X17: the validators of [name] and [vault_name] are the same: each
    accepts a string exactly when it has 2 to 50 characters, begins with a
    letter and consists of letters, digits and hyphens, which is what the
    messages promise; a value that is no string is rejected. *)
Theorem fabric_name_validation `{helpers : Helpers} (key : string) :
  key = "name" \/ key = "vault_name" ->
  exists f,
    ValidateFunc <$> (fabricSchema !! key) = Some (Some f)
    /\ (forall s k,
          accepts f (VString s) k
          <-> (2 <= String.length s <= 50)%nat
              /\ (exists c r, s = String c r /\ isLetter c = true)
              /\ Forall (fun c => isNameChar c = true)
                        (list_ascii_of_string s))
    /\ (forall n k, ~ accepts f (VInt n) k)
    /\ (forall k, ~ accepts f VNil k).
Proof.
  assert (Hre : forall s,
    nameRegexp s = true
    <-> (2 <= String.length s <= 50)%nat
        /\ (exists c r, s = String c r /\ isLetter c = true)
        /\ Forall (fun c => isNameChar c = true) (list_ascii_of_string s)).
  { intros s. destruct s as [|c r].
    - cbn. split; [discriminate|]. intros [[? _] _]. lia.
    - cbn [nameRegexp String.length list_ascii_of_string].
      rewrite !andb_true_iff, forallb_forall, !Nat.leb_le.
      rewrite <- List.Forall_forall. split.
      + intros [[Hc Hr] [H1 H2]].
        split; [lia|]. split; [eauto|].
        constructor; [now apply isLetter_isNameChar | exact Hr].
      + intros [[H1 H2] [(c' & r' & [= <- <-] & Hc) Hall]].
        inversion Hall; subst.
        split; [split; assumption|]. lia. }
  assert (Hacc : forall msg s k,
    accepts (StringMatch nameRegexp msg) (VString s) k
    <-> nameRegexp s = true).
  { intros msg s k. unfold accepts, StringMatch.
    destruct (nameRegexp s); cbn; split; congruence. }
  intros [-> | ->]; eexists; (split; [reflexivity|]); split.
  all: try (intros s k; rewrite Hacc; apply Hre).
  all: split; intros; unfold accepts; cbn; discriminate.
Qed.

(** ** The further properties at concrete inputs *)

Lemma malformed_id_is_returned_witness :
  @resourceArmRecoveryServicesReplicationFabricRead
    Example.strict Example.scripted Scenario.malformed
  = (Err (ParseError "MalformedID"), Scenario.malformed)
  /\ @resourceArmLogAnalyticsDataSourceWindowsPerformanceCounterDelete
       Example.strict Example.scripted Scenario.malformed
     = (Err (ParseError "MalformedID"), Scenario.malformed).
Proof.
  destruct (@malformed_id_is_returned Example.strict Example.scripted
              Scenario.malformed) as [Hf Hc].
  split.
  - apply Hf. vm_compute. reflexivity.
  - apply Hc. vm_compute. reflexivity.
Defined.

Lemma create_check_failure_witness :
  fst (@resourceArmRecoveryServicesReplicationFabricCreate
         Example.strict Example.scripted Scenario.checkFails)
  = Err (Errorf
           "Error checking for presence of existing Recovery Service Replication Fabric %q (Resource Group %q, vault %q): %+v"
           ["fabric1"; "rg1"; "fabric1"] Example.serverError)
  /\ fst (@resourceArmLogAnalyticsDataSourceWindowsPerformanceCounterCreateUpdate
            Example.strict Example.scripted Scenario.counterCheckFails)
     = Err (Errorf
              "failed to check for existing Log Analytics DataSource Windows Performance Counter %q (Resource Group %q / Workspace: %q): %+v"
              ["counter1"; "rg1"; "ws1"] Example.serverError).
Proof.
  split.
  - destruct (@create_check_failure Example.strict Example.scripted
                Scenario.checkFails eq_refl) as [Hf _].
    erewrite Hf; [| reflexivity | vm_compute; reflexivity | reflexivity].
    vm_compute. reflexivity.
  - destruct (@create_check_failure Example.strict Example.scripted
                Scenario.counterCheckFails eq_refl) as [_ Hc].
    erewrite Hc; [| vm_compute; reflexivity | reflexivity].
    vm_compute. reflexivity.
Defined.

Lemma fabric_create_step_failure_witness :
  fst (@resourceArmRecoveryServicesReplicationFabricCreate
         Example.strict Example.scripted Scenario.requestFails)
  = Err (Errorf
           "Error creating/updating Recovery Service Vault %q (Resource Group %q, Vault %q): %+v"
           [stringAttr (d Scenario.requestFails) "name";
            stringAttr (d Scenario.requestFails) "vault_name";
            stringAttr (d Scenario.requestFails) "resource_group_name"]
           Example.serverError)
  /\ d (snd (@resourceArmRecoveryServicesReplicationFabricCreate
               Example.strict Example.scripted Scenario.requestFails))
     = d Scenario.requestFails.
Proof.
  destruct (@fabric_create_step_failure Example.strict Example.scripted
              Scenario.requestFails _ _
              (calls (snd (@resourceArmRecoveryServicesReplicationFabricCreate
                 Example.strict Example.scripted Scenario.requestFails)))
              (ReplicationFabrics_Create "rg1" "vault1" "fabric1"
                 (azureFabric "westus"))
              (ReplyFuture Example.serverError) (SdkError "StatusCode=500")
              (surjective_pairing _))
    as (Hout & Hd & _).
  - reflexivity.
  - vm_compute. set_solver.
  - discriminate.
  - reflexivity.
  - split; [exact Hout | exact Hd].
Defined.

Lemma fabric_create_result_without_id_witness :
  fst (@resourceArmRecoveryServicesReplicationFabricCreate
         Example.strict Example.scripted Scenario.resultWithoutId)
  = Panic
  /\ d (snd (@resourceArmRecoveryServicesReplicationFabricCreate
               Example.strict Example.scripted Scenario.resultWithoutId))
     = d Scenario.resultWithoutId.
Proof.
  destruct (@fabric_create_result_without_id Example.strict Example.scripted
              Scenario.resultWithoutId _ _
              (calls (snd (@resourceArmRecoveryServicesReplicationFabricCreate
                 Example.strict Example.scripted Scenario.resultWithoutId)))
              Scenario.anonymousFabric
              (surjective_pairing _))
    as (Hout & Hd & _).
  - reflexivity.
  - vm_compute. set_solver.
  - reflexivity.
  - split; [exact Hout | exact Hd].
Defined.

Lemma counter_submit_failure_witness :
  fst (@resourceArmLogAnalyticsDataSourceWindowsPerformanceCounterCreateUpdate
         Example.strict Example.scripted Scenario.submitFails)
  = Err (Errorf
           "failed to create Log Analytics DataSource Windows Performance Counter %q (Resource Group %q / Workspace: %q): %+v"
           [stringAttr (d Scenario.submitFails) "name";
            stringAttr (d Scenario.submitFails) "resource_group_name";
            stringAttr (d Scenario.submitFails) "workspace_name"]
           Example.serverError)
  /\ d (snd (@resourceArmLogAnalyticsDataSourceWindowsPerformanceCounterCreateUpdate
               Example.strict Example.scripted Scenario.submitFails))
     = d Scenario.submitFails.
Proof.
  destruct (@counter_submit_failure Example.strict Example.scripted
              Scenario.submitFails _ _
              (calls (snd (@resourceArmLogAnalyticsDataSourceWindowsPerformanceCounterCreateUpdate
                 Example.strict Example.scripted Scenario.submitFails)))
              (DataSources_CreateOrUpdate "rg1" "ws1" "counter1"
                 (counterParams Example.counterConfig))
              (ReplyDataSource (counterParams Example.counterConfig)
                 Example.serverError)
              (SdkError "StatusCode=500")
              (surjective_pairing _))
    as (Hout & Hd & _).
  - reflexivity.
  - vm_compute. set_solver.
  - reflexivity.
  - reflexivity.
  - split; [exact Hout | exact Hd].
Defined.

Lemma fabric_create_succeeds_witness :
  exists w pre res,
    @resourceArmRecoveryServicesReplicationFabricCreate
      Example.strict Example.scripted Example.createFabric
    = @resourceArmRecoveryServicesReplicationFabricRead
        Example.strict Example.scripted
        {| world := w;
           calls := calls Example.createFabric ++ pre ++
             [ (ReplicationFabrics_Create
                  (stringAttr (d Example.createFabric) "resource_group_name")
                  (stringAttr (d Example.createFabric) "vault_name")
                  (stringAttr (d Example.createFabric) "name")
                  (azureFabric
                     (stringAttr (d Example.createFabric) "location")),
                ReplyFuture None);
               (CreateFuture_WaitForCompletionRef, ReplyWait None);
               (CreateFuture_Result, ReplyFabric res None) ];
           d := ResourceData_SetId (d Example.createFabric)
                  Example.fabricId |}.
Proof.
  do 3 eexists.
  eapply (@fabric_create_succeeds Example.strict Example.scripted
            Example.createFabric).
  - right. split; [reflexivity|].
    exists (fst Example.noFabric), (snd Example.noFabric).
    split; [reflexivity|]. split; [reflexivity|].
    constructor; [|constructor]. cbn. split; [right|left]; reflexivity.
  - reflexivity.
  - reflexivity.
  - reflexivity.
  - reflexivity.
Defined.

Lemma counter_create_after_submit_witness :
  fst (@resourceArmLogAnalyticsDataSourceWindowsPerformanceCounterCreateUpdate
         Example.strict Example.scripted Scenario.updateThenMissing)
  = Err (Errorf
           "failed to retrieve Log Analytics DataSource Windows Performance Counter %q (Resource Group %q): %+v"
           [stringAttr (d Scenario.updateThenMissing) "name";
            stringAttr (d Scenario.updateThenMissing) "resource_group_name"]
           Example.notFoundError).
Proof.
  erewrite (@counter_create_after_submit Example.strict Example.scripted
              Scenario.updateThenMissing _ []
              (counterParams Example.counterTracked) _
              (fst Example.noDataSource) (snd Example.noDataSource)).
  - reflexivity.
  - left. repeat split.
  - vm_compute. reflexivity.
  - vm_compute. reflexivity.
Defined.

Lemma fabric_read_without_details_witness :
  fst (@resourceArmRecoveryServicesReplicationFabricRead
         Example.strict Example.scripted Scenario.readAnonymousFabric)
  = Panic.
Proof.
  eapply (@fabric_read_without_details Example.strict Example.scripted
            Scenario.readAnonymousFabric Scenario.fabric1ResourceID
            Scenario.anonymousFabric).
  - vm_compute. reflexivity.
  - vm_compute. reflexivity.
  - left. reflexivity.
Defined.

Lemma fabric_read_populates_witness :
  exists st',
    @resourceArmRecoveryServicesReplicationFabricRead
      Example.strict Example.scripted Example.readFabric = (Ok tt, st')
    /\ rd_attrs (d st') !! "name" = Some (VString "fabric1")
    /\ rd_attrs (d st') !! "resource_group_name" = Some (VString "rg1")
    /\ rd_attrs (d st') !! "vault_name" = Some (VString "vault1")
    /\ rd_attrs (d st') !! "location" = Some (VString "westus").
Proof.
  edestruct (@fabric_read_populates Example.strict Example.scripted
               Example.readFabric Scenario.fabric1ResourceID Example.fabric1)
    as (st' & Hrun & _ & Hname & Hrg & Hvault & Hloc & _).
  - vm_compute. reflexivity.
  - vm_compute. reflexivity.
  - reflexivity.
  - reflexivity.
  - exists st'. split; [exact Hrun|].
    split; [exact Hname|]. split; [exact Hrg|]. split; [exact Hvault|].
    exact Hloc.
Defined.

Lemma counter_read_populates_witness :
  exists st',
    @resourceArmLogAnalyticsDataSourceWindowsPerformanceCounterRead
      Example.strict Example.scripted Scenario.readCounter = (Ok tt, st')
    /\ rd_attrs (d st') !! "counter_name" = Some (VString "% Processor Time")
    /\ rd_attrs (d st') !! "instance_name" = Some (VString "_Total")
    /\ rd_attrs (d st') !! "interval_seconds" = Some (VInt 60)
    /\ rd_attrs (d st') !! "object_name" = Some (VString "Processor").
Proof.
  edestruct (@counter_read_populates Example.strict Example.scripted
               Scenario.readCounter)
    with (id := Scenario.counter1Id) (resp := Example.counter1)
         (p := Example.counterProperty)
    as (st' & Hrun & _ & _ & _ & _ & Hc & Hi & Hs & Ho).
  - vm_compute. reflexivity.
  - vm_compute. reflexivity.
  - reflexivity.
  - vm_compute. discriminate.
  - exists st'. split; [exact Hrun|].
    split; [exact Hc|]. split; [exact Hi|]. split; [exact Hs|]. exact Ho.
Defined.

Lemma counter_read_bad_properties_witness :
  fst (@resourceArmLogAnalyticsDataSourceWindowsPerformanceCounterRead
         Example.strict Example.scripted Scenario.readEmptyCounter)
  = Err (Errorf
           "failed to decode properties json for Log Analytics DataSource Windows Performance Counter %q (Resource Group %q / Workspace: %q): %+v"
           ["counter1"; "rg1"; "ws1"]
           (Some (SdkError "unexpected end of JSON input"))).
Proof.
  edestruct (@counter_read_bad_properties Example.strict Example.scripted
               Scenario.readEmptyCounter Scenario.counter1Id
               Scenario.emptyCounter)
    as [Hempty _].
  - vm_compute. reflexivity.
  - vm_compute. reflexivity.
  - rewrite Hempty; reflexivity.
Defined.

Lemma unmarshal_errors_witness :
  @Unmarshal Example.strict (DocObject Scenario.partialDocument) zeroProperty
  = ({| CounterName := "% Processor Time"; InstanceName := "";
        IntervalSeconds := 0; ObjectName := "Processor" |}, None)
  /\ snd (@Unmarshal Example.strict
            (DocObject Scenario.partialDocument) zeroProperty) = None.
Proof.
  split; [vm_compute; reflexivity|].
  apply (proj1 (@unmarshal_errors Example.strict Scenario.partialDocument
                  zeroProperty)).
  repeat constructor; cbn; intros f; vm_compute; intros [= <-]; reflexivity.
Defined.

Lemma delete_call_order_witness :
  kinds (calls (snd (@resourceArmRecoveryServicesReplicationFabricDelete
                       Example.strict Example.scripted
                       Example.deleteFabricTwice)))
  = [KDelete; KWait; KResult]
  /\ d (snd (@resourceArmRecoveryServicesReplicationFabricDelete
               Example.strict Example.scripted Example.deleteFabricTwice))
     = d Example.deleteFabricTwice.
Proof.
  destruct (@delete_call_order Example.strict Example.scripted
              Example.deleteFabricTwice) as [Hf _].
  destruct (Hf _ _ (surjective_pairing _)) as (Hd & new & Hcalls & _ & Hok).
  split; [|exact Hd].
  rewrite Hcalls. apply Hok. vm_compute. reflexivity.
Defined.

Lemma read_is_read_only_witness :
  rd_attrs (d (snd (@resourceArmRecoveryServicesReplicationFabricRead
                      Example.strict Example.scripted Example.readFabric)))
    !! "tags"
  = rd_attrs (d Example.readFabric) !! "tags".
Proof.
  destruct (@read_is_read_only Example.strict Example.scripted
              Example.readFabric) as [Hf _].
  destruct (Hf _ _ (surjective_pairing _)) as (_ & _ & Hframe).
  apply Hframe. intros Hin.
  repeat (apply elem_of_cons in Hin as [Hin|Hin]; [discriminate Hin|]).
  inversion Hin.
Defined.

Lemma counter_submits_configuration_witness :
  exists params,
    DataSources_CreateOrUpdate "rg1" "ws1" "counter1"
      (counterParams Example.counterConfig)
    = DataSources_CreateOrUpdate
        (stringAttr (d Example.createCounter) "resource_group_name")
        (stringAttr (d Example.createCounter) "workspace_name")
        (stringAttr (d Example.createCounter) "name") params
    /\ operationalinsights.Kind params = "WindowsPerformanceCounter"
    /\ operationalinsights.Properties params
       = GProperty
           {| CounterName := stringAttr (d Example.createCounter) "counter_name";
              InstanceName := stringAttr (d Example.createCounter) "instance_name";
              IntervalSeconds := intAttr (d Example.createCounter) "interval_seconds";
              ObjectName := stringAttr (d Example.createCounter) "object_name" |}.
Proof.
  eapply (@counter_submits_configuration Example.strict Example.scripted
            Example.createCounter _ _
            (calls (snd (@resourceArmLogAnalyticsDataSourceWindowsPerformanceCounterCreateUpdate
               Example.strict Example.scripted Example.createCounter)))
            _ (ReplyDataSource (counterParams Example.counterConfig) None)
            (surjective_pairing _)).
  - reflexivity.
  - vm_compute. constructor 2. constructor 1.
  - reflexivity.
Defined.

Lemma read_is_idempotent_witness :
  exists st2,
    @resourceArmRecoveryServicesReplicationFabricRead
      Example.strict Example.scripted
      (snd (@resourceArmRecoveryServicesReplicationFabricRead
              Example.strict Example.scripted Scenario.readFabricTwice))
    = (Ok tt, st2)
    /\ d st2
       = d (snd (@resourceArmRecoveryServicesReplicationFabricRead
                   Example.strict Example.scripted Scenario.readFabricTwice)).
Proof.
  destruct (@read_is_idempotent Example.strict Example.scripted
              Scenario.readFabricTwice) as [Hf _].
  eapply (Hf Scenario.fabric1ResourceID Example.fabric1).
  - vm_compute. reflexivity.
  - vm_compute. reflexivity.
  - vm_compute. reflexivity.
  - vm_compute. reflexivity.
Defined.

Lemma fabric_name_validation_witness :
  exists f,
    ValidateFunc <$> (@fabricSchema Example.strict !! "name") = Some (Some f)
    /\ accepts f (VString "fabric1") "name"
    /\ ~ accepts f (VString "1fabric") "name".
Proof.
  destruct (@fabric_name_validation Example.strict "name" (or_introl eq_refl))
    as (f & Hf & Hiff & _).
  exists f. split; [exact Hf|]. split.
  - apply Hiff. split; [cbn; lia|]. split; [do 2 eexists; split; reflexivity|].
    repeat constructor.
  - intros H. apply Hiff in H as (_ & (c & r & [= <- <-] & Hc) & _).
    discriminate Hc.
Defined.
